(** * Ollama Chat: the streaming chat / tool-call orchestration loop

    A shallow embedding of

      - [ollama_client.py]  ([OllamaClient.chat_stream]),
      - [tools.py]          ([ToolRegistry]),
      - [ollama_chat.py]    ([ChatHistory], [OllamaChatApp])

    and the properties of the orchestration loop stated in the design
    specification.

    Python values that come off the wire are modelled as decoded JSON
    ([json]); Python dictionaries are association lists in insertion
    order; every Python operation that can raise is a function into
    [outcome].  The application object is a record, its methods are
    computations in a state-and-exception monad over that record. *)

From Stdlib Require Import ZArith String Ascii List Bool Lia DecimalString.
From Stdlib Require DecimalZ.
From stdpp Require Import base option list strings gmap.

Open Scope string_scope.
Open Scope list_scope.

(* ===================================================================== *)
(** ** Python values and exceptions                                      *)
(* ===================================================================== *)

Module Py.

(** What [json.loads] produces, and what the program stores in its
    message dictionaries.  Numbers are integers here: the program never
    computes with a number, it only tests truthiness and types. *)
#[warnings="-register-all"]
Inductive json : Type :=
| JNull
| JBool (b : bool)
| JNum (n : Z)
| JStr (s : string)
| JArr (xs : list json)
| JObj (kvs : list (string * json)).

(** The exception classes the three source files can see.  All of them
    derive from [Exception]; the first four derive from
    [requests.exceptions.RequestException].  [json.loads] raises the
    three that follow: [JSONDecodeError] for a text that is no JSON,
    [UnicodeDecodeError] for bytes that are no text, [RecursionError]
    for a nesting too deep. *)
Inductive exn_class : Type :=
| ConnectionError
| Timeout
| HTTPError
| ChunkedEncodingError
| JSONDecodeError
| UnicodeDecodeError
| RecursionError
| AttributeError
| TypeError
| KeyError
| OSError
| UserError.

Record exn : Type := Exn { exn_kind : exn_class; exn_msg : string }.

Definition is_RequestException (c : exn_class) : bool :=
  match c with
  | ConnectionError | Timeout | HTTPError | ChunkedEncodingError => true
  | _ => false
  end.

(** What [except json.JSONDecodeError] catches. *)
Definition is_JSONDecodeError (c : exn_class) : bool :=
  match c with
  | JSONDecodeError => true
  | _ => false
  end.

Inductive outcome (A : Type) : Type :=
| Return (a : A)
| Raise (e : exn).
Arguments Return {A} a.
Arguments Raise {A} e.

(** [bool(v)] *)
Definition truthy (v : json) : bool :=
  match v with
  | JNull => false
  | JBool b => b
  | JNum n => negb (n =? 0)%Z
  | JStr s => negb (String.eqb s "")
  | JArr xs => match xs with [] => false | _ => true end
  | JObj kvs => match kvs with [] => false | _ => true end
  end.

(** [d[k]] on the association list of a dictionary. *)
Fixpoint dict_lookup (k : string) (kvs : list (string * json)) : option json :=
  match kvs with
  | [] => None
  | (k', v) :: rest => if String.eqb k k' then Some v else dict_lookup k rest
  end.

(** [d[k] = v]: an existing key keeps its position. *)
Fixpoint dict_set {V : Type} (k : string) (v : V) (kvs : list (string * V))
  : list (string * V) :=
  match kvs with
  | [] => [(k, v)]
  | (k', v') :: rest =>
      if String.eqb k k' then (k, v) :: rest else (k', v') :: dict_set k v rest
  end.

Fixpoint dict_find {V : Type} (k : string) (kvs : list (string * V)) : option V :=
  match kvs with
  | [] => None
  | (k', v) :: rest => if String.eqb k k' then Some v else dict_find k rest
  end.




Definition type_name (v : json) : string :=
  match v with
  | JNull => "NoneType"
  | JBool _ => "bool"
  | JNum _ => "int"
  | JStr _ => "str"
  | JArr _ => "list"
  | JObj _ => "dict"
  end.

(** [v.get(k, default)]: only dictionaries have a [get] method. *)
Definition py_get (v : json) (k : string) (default : json) : outcome json :=
  match v with
  | JObj kvs => Return (from_option id default (dict_lookup k kvs))
  | _ => Raise (Exn AttributeError
                  ("'" +:+ type_name v +:+ "' object has no attribute 'get'"))
  end.

(** [needle in hay] for two strings. *)
Fixpoint is_substring (needle hay : string) : bool :=
  String.prefix needle hay ||
  match hay with
  | EmptyString => false
  | String _ rest => is_substring needle rest
  end.

Definition is_str (k : string) (v : json) : bool :=
  match v with JStr s => String.eqb k s | _ => false end.

(** [k in v] for a string [k]: key test on a dictionary, substring test
    on a string, element test on a list, [TypeError] on the rest. *)
Definition py_in (k : string) (v : json) : outcome bool :=
  match v with
  | JObj kvs => Return (match dict_lookup k kvs with Some _ => true | None => false end)
  | JStr s => Return (is_substring k s)
  | JArr xs => Return (existsb (is_str k) xs)
  | _ => Raise (Exn TypeError
                  ("argument of type '" +:+ type_name v +:+ "' is not iterable"))
  end.

(** [v[k]] for a string [k]. *)
Definition py_getitem (v : json) (k : string) : outcome json :=
  match v with
  | JObj kvs =>
      match dict_lookup k kvs with
      | Some x => Return x
      | None => Raise (Exn KeyError ("'" +:+ k +:+ "'"))
      end
  | JStr _ => Raise (Exn TypeError "string indices must be integers")
  | JArr _ => Raise (Exn TypeError "list indices must be integers or slices, not str")
  | _ => Raise (Exn TypeError
                  ("'" +:+ type_name v +:+ "' object is not subscriptable"))
  end.

(** [acc += v] for a string accumulator. *)
Definition py_str_iadd (acc : string) (v : json) : outcome string :=
  match v with
  | JStr s => Return (acc +:+ s)
  | _ => Raise (Exn TypeError
                  ("can only concatenate str (not " +:+ type_name v +:+ ") to str"))
  end.

Definition chars_of (s : string) : list json :=
  map (fun c => JStr (String c EmptyString)) (list_ascii_of_string s).

(** [acc.extend(v)]: any iterable extends the list. *)
Definition py_list_extend (acc : list json) (v : json) : outcome (list json) :=
  match v with
  | JArr xs => Return (acc ++ xs)
  | JStr s => Return (acc ++ chars_of s)
  | JObj kvs => Return (acc ++ map (fun kv => JStr (fst kv)) kvs)
  | _ => Raise (Exn TypeError
                  ("'" +:+ type_name v +:+ "' object is not iterable"))
  end.

(** [s.replace(a, b)] for single characters. *)
Fixpoint str_replace (a b : ascii) (s : string) : string :=
  match s with
  | EmptyString => EmptyString
  | String c rest => String (if Ascii.eqb c a then b else c) (str_replace a b rest)
  end.

(** Whitespace in the sense of [str.strip()], for the code points below 256. *)
Definition is_space (c : ascii) : bool :=
  let n := nat_of_ascii c in
  (((9 <=? n) && (n <=? 13)) || ((28 <=? n) && (n <=? 32))
   || (n =? 133) || (n =? 160))%nat.

Fixpoint lstrip (s : string) : string :=
  match s with
  | EmptyString => EmptyString
  | String c rest => if is_space c then lstrip rest else s
  end.

Fixpoint str_rev_onto (s acc : string) : string :=
  match s with
  | EmptyString => acc
  | String c rest => str_rev_onto rest (String c acc)
  end.

Definition str_rev (s : string) : string := str_rev_onto s EmptyString.

Definition strip (s : string) : string := str_rev (lstrip (str_rev (lstrip s))).

(** [str(n)] for an integer. *)
Definition str_of_Z (n : Z) : string := NilZero.string_of_int (Z.to_int n).

End Py.
Export Py.

(** The services of the Python runtime and of the machine that the
    program calls but does not define. *)
Class Runtime : Type := {
  (** [repr(v)], which is what [str(v)] and an f-string give for a value
      that is not a string *)
  py_repr : json -> string;
  (** [json.load(f)] on the text of a file; [None] is an exception *)
  json_loads : string -> option json;
  (** [json.loads(line)] on a line of bytes of a response body: the
      value, or the exception raised: [json.JSONDecodeError], or another
      one ([UnicodeDecodeError], [RecursionError]) *)
  json_loads_line : string -> outcome json;
  (** [json.dumps(v)] *)
  json_dumps : json -> string;
  (** [json.dumps(v, indent=2)] *)
  json_dumps_indent : json -> string;
  (** whether [open(path, 'w')] succeeds *)
  open_w_ok : string -> bool;
  (** what the body of [get_top_cryptocurrencies] returns: the market
      table, or the failure record its own handlers build *)
  market_report : json;
}.

(* ===================================================================== *)
(** ** ollama_client.py: the transport client                            *)
(* ===================================================================== *)

Module OllamaClient.

(** What the HTTP layer does with one [requests.post(url, json=payload,
    stream=True)]: the call raises, or it returns a response with a
    status line and a body that [iter_lines()] hands out line by line;
    the body may break off with an exception after the lines it
    delivered. *)
Inductive post_result : Type :=
| PostRaises (e : exn)
| PostResponse (status_code : Z) (reason : string)
               (lines : list string) (broken : option exn).

(** What iterating a generator produces: the values it yields, and the
    exception that ends it if one escapes its body. *)
Record stream : Type := Stream { chunks : list json; failure : option exn }.

Definition default_base_url : string := "http://localhost:11434".

Definition chat_url (base_url : string) : string := base_url +:+ "/api/chat".

(** The request body of [chat_stream]; [tools] is added only when the
    list is not empty. *)
Definition chat_payload (model : json) (messages tools : list json) : json :=
  JObj ([("model", model); ("messages", JArr messages); ("stream", JBool true)]
        ++ (if truthy (JArr tools) then [("tools", JArr tools)] else [])).

(** [response.raise_for_status()] raises [HTTPError] for the client and
    server error statuses. *)
Definition raise_for_status (url : string) (status_code : Z) (reason : string)
  : outcome unit :=
  if ((400 <=? status_code) && (status_code <? 500))%Z then
    Raise (Exn HTTPError (str_of_Z status_code +:+ " Client Error: " +:+ reason
                          +:+ " for url: " +:+ url))
  else if ((500 <=? status_code) && (status_code <? 600))%Z then
    Raise (Exn HTTPError (str_of_Z status_code +:+ " Server Error: " +:+ reason
                          +:+ " for url: " +:+ url))
  else Return tt.

Definition error_chunk (e : exn) : json :=
  JObj [("error", JBool true);
        ("message", JStr ("Error communicating with Ollama: " +:+ exn_msg e))].

(** The [except requests.exceptions.RequestException] clause around the
    whole body: the exception becomes one more yielded chunk, any other
    exception leaves the generator. *)
Definition on_exception (yielded : list json) (e : exn) : stream :=
  if is_RequestException (exn_kind e)
  then Stream (yielded ++ [error_chunk e]) None
  else Stream yielded (Some e).

Section WithRuntime.
Context `{RT : Runtime}.

(** The [for line in response.iter_lines()] loop: empty lines are
    passed over, a line on which [json.loads] raises
    [json.JSONDecodeError] is reported and passed over, every other line
    is yielded decoded.  Any other exception of [json.loads] ends the
    loop: the result is what was yielded before it, and that exception. *)
Fixpoint decode_lines (lines : list string) : list json * option exn :=
  match lines with
  | [] => ([], None)
  | line :: rest =>
      if String.eqb line "" then decode_lines rest
      else match json_loads_line line with
           | Return chunk =>
               let '(yielded, raised) := decode_lines rest in
               (chunk :: yielded, raised)
           | Raise e =>
               if is_JSONDecodeError (exn_kind e) then decode_lines rest
               else ([], Some e)
           end
  end.

Definition chat_stream (base_url : string) (r : post_result) : stream :=
  match r with
  | PostRaises e => on_exception [] e
  | PostResponse status_code reason lines broken =>
      match raise_for_status (chat_url base_url) status_code reason with
      | Raise e => on_exception [] e
      | Return _ =>
          match decode_lines lines with
          | (yielded, Some e) => on_exception yielded e
          | (yielded, None) =>
              match broken with
              | None => Stream yielded None
              | Some e => on_exception yielded e
              end
          end
      end
  end.

End WithRuntime.
End OllamaClient.
Export OllamaClient.

(* ===================================================================== *)
(** ** tools.py: the tool registry                                       *)
(* ===================================================================== *)

Module ToolRegistry.

(** A registered handler; it is called with the argument mapping
    unpacked into keyword arguments. *)
Definition handler : Type := list (string * json) -> outcome json.

Record tool_info : Type := ToolInfo {
  tool_name : string;
  tool_description : string;
  tool_function : handler;
  tool_parameters : json;
}.

(** [self.tools]: a dictionary from names to tool records. *)
Definition registry : Type := list (string * tool_info).

Definition register_tool (name description : string) (function : handler)
    (parameters : json) (tools : registry) : registry :=
  dict_set name (ToolInfo name description function parameters) tools.

Definition get_tool_definitions (tools : registry) : list json :=
  map (fun entry =>
         let info := snd entry in
         JObj [("type", JStr "function");
               ("function", JObj [("name", JStr (tool_name info));
                                  ("description", JStr (tool_description info));
                                  ("parameters", tool_parameters info)])])
      tools.

(** [tool_name not in self.tools] hashes the name first: lists and
    dictionaries are not hashable. *)
Definition py_not_in_tools (name : json) (tools : registry) : outcome bool :=
  match name with
  | JStr s => Return (match dict_find s tools with Some _ => false | None => true end)
  | JArr _ | JObj _ =>
      Raise (Exn TypeError ("unhashable type: '" +:+ type_name name +:+ "'"))
  | _ => Return true
  end.

(** The call with unpacked keyword arguments: the arguments have to be
    a mapping. *)
Definition call_with_kwargs (f : handler) (arguments : json) : outcome json :=
  match arguments with
  | JObj kwargs => f kwargs
  | _ => Raise (Exn TypeError "argument after ** must be a mapping")
  end.

Section WithRuntime.
Context `{RT : Runtime}.

(** [str(v)], and [{v}] inside an f-string. *)
Definition py_str (v : json) : string :=
  match v with JStr s => s | _ => py_repr v end.

Definition error_payload (text : string) : string :=
  json_dumps (JObj [("error", JStr text)]).

Definition execute_tool (tools : registry) (name arguments : json)
  : outcome string :=
  match py_not_in_tools name tools with
  | Raise e => Raise e
  | Return true =>
      Return (error_payload ("Tool '" +:+ py_str name +:+ "' not found"))
  | Return false =>
      (* inside the try block *)
      match name with
      | JStr s =>
          match dict_find s tools with
          | Some info =>
              match call_with_kwargs (tool_function info) arguments with
              | Return result => Return (json_dumps_indent result)
              | Raise e =>
                  Return (error_payload ("Error executing tool: " +:+ exn_msg e))
              end
          | None =>
              Return (error_payload ("Error executing tool: '" +:+ s +:+ "'"))
          end
      | _ => Return (error_payload ("Error executing tool: " +:+ py_repr name))
      end
  end.

(** [get_top_cryptocurrencies()] takes no argument; every failure
    inside its body is turned into the record it returns. *)
Definition get_top_cryptocurrencies : handler := fun kwargs =>
  match kwargs with
  | [] => Return market_report
  | (k, _) :: _ =>
      Raise (Exn TypeError
               ("get_top_cryptocurrencies() got an unexpected keyword argument '"
                +:+ k +:+ "'"))
  end.

Definition _register_default_tools (tools : registry) : registry :=
  register_tool "get_top_cryptocurrencies"
    "Get the top 10 cryptocurrencies by market cap with current prices and 24h change"
    get_top_cryptocurrencies
    (JObj [("type", JStr "object"); ("properties", JObj []); ("required", JArr [])])
    tools.

(** [ToolRegistry.__init__] *)
Definition ToolRegistry_init : registry := _register_default_tools [].

End WithRuntime.
End ToolRegistry.
Export ToolRegistry.

(* ===================================================================== *)
(** ** ollama_chat.py: persistence and the application                    *)
(* ===================================================================== *)

Module ChatHistory.

(** [os.path.join(a, b)] for a relative [b]. *)
Definition path_join (a b : string) : string :=
  if String.eqb a "" then b
  else if String.eqb (String.substring (String.length a - 1) 1 a) "/" then a +:+ b
  else a +:+ "/" +:+ b.

Definition chat_filename (model timestamp : string) : string :=
  "chat_" +:+ str_replace ":" "_" model +:+ "_" +:+ timestamp +:+ ".json".

(** The dictionary [save_chat] writes. *)
Definition chat_record (messages : list json) (model timestamp : string) : json :=
  JObj [("model", JStr model);
        ("timestamp", JStr timestamp);
        ("messages", JArr messages)].

Section WithRuntime.
Context `{RT : Runtime}.

(** [save_chat]: [timestamp] is what [datetime.now().strftime(..)] gives
    at the call, [files] the content of the file system by path.  The
    result is the new file system and the path returned. *)
Definition save_chat (history_dir : string) (timestamp : string)
    (messages : list json) (model : string) (files : gmap string string)
  : outcome (gmap string string * string) :=
  let filename := chat_filename model timestamp in
  let filepath := path_join history_dir filename in
  let data := chat_record messages model timestamp in
  if open_w_ok filepath
  then Return (<[filepath := json_dumps_indent data]> files, filepath)
  else Raise (Exn OSError ("[Errno 2] No such file or directory: '"
                           +:+ filepath +:+ "'")).

(** [load_chat]: read the file and decode it. *)
Definition load_chat (filepath : string) (files : gmap string string)
  : outcome json :=
  match files !! filepath with
  | None => Raise (Exn OSError ("[Errno 2] No such file or directory: '"
                                +:+ filepath +:+ "'"))
  | Some text =>
      match json_loads text with
      | Some data => Return data
      | None => Raise (Exn JSONDecodeError "Expecting value")
      end
  end.

End WithRuntime.
End ChatHistory.
Export ChatHistory.

Module App.

(** The callables the worker threads hand to the Tk event loop with
    [self.root.after(0, ...)]. *)
Inductive callback : Type :=
| CbStartAssistantMessage
| CbAddToCurrentMessage (text tag : string)
| CbHandleToolCalls (tool_calls : list json) (assistant_message : string)
| CbFinishStreaming.

(** The targets of the [threading.Thread]s the application starts. *)
Inductive thread : Type :=
| ThStreamResponse
| ThStreamFinalResponse.

(** Observable steps, recorded in the order they happen. *)
Inductive event : Type :=
| EvRequest (payload : json)          (* a POST to /api/chat is issued *)
| EvDispatch (name arguments : json)  (* execute_tool is called *)
| EvAppend (message : json)           (* self.messages.append *)
| EvCallbackError (e : exn).          (* an exception left a Tk callback *)

(** The application object together with the widgets it owns, the Tk
    event queue, the threads started and not yet run, and the machine
    (files, clock).  [trace] is a record of what happened; the program
    never reads it. *)
Record app : Type := MkApp {
  messages : list json;
  current_model : option string;
  is_streaming : bool;
  tool_registry : registry;
  history_dir : string;
  base_url : string;
  model_var : string;
  input_text : string;
  chat_display : list (string * string);
  dialogs : list (string * string);
  after_queue : list callback;
  threads : list thread;
  files : gmap string string;
  clock : string;
  trace : list event;
}.

Definition set_messages (v : list json) (a : app) : app :=
  MkApp v (current_model a) (is_streaming a) (tool_registry a) (history_dir a)
        (base_url a) (model_var a) (input_text a) (chat_display a) (dialogs a)
        (after_queue a) (threads a) (files a) (clock a) (trace a).
Definition set_current_model (v : option string) (a : app) : app :=
  MkApp (messages a) v (is_streaming a) (tool_registry a) (history_dir a)
        (base_url a) (model_var a) (input_text a) (chat_display a) (dialogs a)
        (after_queue a) (threads a) (files a) (clock a) (trace a).
Definition set_is_streaming (v : bool) (a : app) : app :=
  MkApp (messages a) (current_model a) v (tool_registry a) (history_dir a)
        (base_url a) (model_var a) (input_text a) (chat_display a) (dialogs a)
        (after_queue a) (threads a) (files a) (clock a) (trace a).
Definition set_input_text (v : string) (a : app) : app :=
  MkApp (messages a) (current_model a) (is_streaming a) (tool_registry a)
        (history_dir a) (base_url a) (model_var a) v (chat_display a) (dialogs a)
        (after_queue a) (threads a) (files a) (clock a) (trace a).
Definition set_chat_display (v : list (string * string)) (a : app) : app :=
  MkApp (messages a) (current_model a) (is_streaming a) (tool_registry a)
        (history_dir a) (base_url a) (model_var a) (input_text a) v (dialogs a)
        (after_queue a) (threads a) (files a) (clock a) (trace a).
Definition set_dialogs (v : list (string * string)) (a : app) : app :=
  MkApp (messages a) (current_model a) (is_streaming a) (tool_registry a)
        (history_dir a) (base_url a) (model_var a) (input_text a) (chat_display a) v
        (after_queue a) (threads a) (files a) (clock a) (trace a).
Definition set_after_queue (v : list callback) (a : app) : app :=
  MkApp (messages a) (current_model a) (is_streaming a) (tool_registry a)
        (history_dir a) (base_url a) (model_var a) (input_text a) (chat_display a)
        (dialogs a) v (threads a) (files a) (clock a) (trace a).
Definition set_threads (v : list thread) (a : app) : app :=
  MkApp (messages a) (current_model a) (is_streaming a) (tool_registry a)
        (history_dir a) (base_url a) (model_var a) (input_text a) (chat_display a)
        (dialogs a) (after_queue a) v (files a) (clock a) (trace a).
Definition set_files (v : gmap string string) (a : app) : app :=
  MkApp (messages a) (current_model a) (is_streaming a) (tool_registry a)
        (history_dir a) (base_url a) (model_var a) (input_text a) (chat_display a)
        (dialogs a) (after_queue a) (threads a) v (clock a) (trace a).
Definition set_trace (v : list event) (a : app) : app :=
  MkApp (messages a) (current_model a) (is_streaming a) (tool_registry a)
        (history_dir a) (base_url a) (model_var a) (input_text a) (chat_display a)
        (dialogs a) (after_queue a) (threads a) (files a) (clock a) v.

(** *** The state-and-exception monad of the methods

    A method takes the application and gives it back changed, with a
    result or an exception.  The state changes made before an
    exception stay. *)
Definition M (A : Type) : Type := app -> app * outcome A.

Definition ret {A} (a : A) : M A := fun st => (st, Return a).
Definition raise {A} (e : exn) : M A := fun st => (st, Raise e).
Definition bind {A B} (m : M A) (k : A -> M B) : M B := fun st =>
  match m st with
  | (st', Return a) => k a st'
  | (st', Raise e) => (st', Raise e)
  end.
Definition lift {A} (o : outcome A) : M A := fun st => (st, o).
Definition modify (f : app -> app) : M unit := fun st => (f st, Return tt).
Definition gets {A} (f : app -> A) : M A := fun st => (st, Return (f st)).
(** [try: body except Exception as e: handler(e)] *)
Definition try_except {A} (body : M A) (handler : exn -> M A) : M A := fun st =>
  match body st with
  | (st', Return a) => (st', Return a)
  | (st', Raise e) => handler e st'
  end.
Definition exec {A} (m : M A) (st : app) : app := fst (m st).

Declare Scope py_scope.
Delimit Scope py_scope with py.
Notation "'let*' x ':=' m 'in' k" := (bind m (fun x => k))
  (at level 10, x name, m at level 100, k at level 200) : py_scope.
Notation "'let*' ' pat ':=' m 'in' k" :=
  (bind m (fun x => match x with pat => k end))
  (at level 10, pat pattern, m at level 100, k at level 200) : py_scope.
Notation "m >> k" := (bind m (fun _ => k))
  (at level 100, k at level 200, right associativity) : py_scope.
Open Scope py_scope.

Definition log (e : event) : M unit :=
  modify (fun st => set_trace (trace st ++ [e]) st).

(** [self.messages.append(m)] *)
Definition append_message (m : json) : M unit :=
  modify (fun st => set_messages (messages st ++ [m]) st) >> log (EvAppend m).

(** [self.root.after(0, cb)] *)
Definition root_after (cb : callback) : M unit :=
  modify (fun st => set_after_queue (after_queue st ++ [cb]) st).

(** [threading.Thread(target=th, daemon=True).start()] *)
Definition start_thread (th : thread) : M unit :=
  modify (fun st => set_threads (threads st ++ [th]) st).

Definition display_insert (text tag : string) : M unit :=
  modify (fun st => set_chat_display (chat_display st ++ [(text, tag)]) st).

Definition messagebox (title text : string) : M unit :=
  modify (fun st => set_dialogs (dialogs st ++ [(title, text)]) st).

Definition user_message (text : string) : json :=
  JObj [("role", JStr "user"); ("content", JStr text)].
Definition assistant_message (text : string) : json :=
  JObj [("role", JStr "assistant"); ("content", JStr text)].
Definition assistant_tool_message (text : string) (tool_calls : list json) : json :=
  JObj [("role", JStr "assistant"); ("content", JStr text);
        ("tool_calls", JArr tool_calls)].
Definition tool_message (result : string) : json :=
  JObj [("role", JStr "tool"); ("content", JStr result)].

Definition model_value (m : option string) : json :=
  match m with Some s => JStr s | None => JNull end.

Section WithRuntime.
Context `{RT : Runtime}.

(** *** Display *)

Definition start_assistant_message : M unit :=
  display_insert (String "010" "Assistant: ") "assistant".

Definition add_to_current_message (text tag : string) : M unit :=
  if is_substring "```" text || String.eqb tag "code"
  then display_insert text "code"
  else display_insert text tag.

Definition add_message_to_display (role content tag : string) : M unit :=
  display_insert (String "010" role +:+ ": ") tag >>
  display_insert (content +:+ String "010" "") tag.

(** *** [finish_streaming] *)

Definition auto_save : M unit :=
  let* st := gets id in
  match current_model st with
  | None =>
      raise (Exn AttributeError "'NoneType' object has no attribute 'replace'")
  | Some model =>
      match save_chat (history_dir st) (clock st) (messages st) model (files st) with
      | Return (files', _) => modify (set_files files')
      | Raise e => raise e
      end
  end.

Definition finish_streaming : M unit :=
  modify (set_is_streaming false) >>
  let* msgs := gets messages in
  if (0 <? length msgs)%nat
  then try_except auto_save (fun _ => ret tt)
  else ret tt.

(** *** [send_message] *)

Definition falsy_model (m : option string) : bool :=
  match m with None => true | Some s => String.eqb s "" end.

Definition send_message : M unit :=
  let* text := gets input_text in
  let message := strip (text +:+ String "010" "") in
  if String.eqb message "" then ret tt
  else
    let* cm := gets current_model in
    (if falsy_model cm
     then let* mv := gets model_var in modify (set_current_model (Some mv))
     else ret tt) >>
    let* cm := gets current_model in
    if falsy_model cm
    then messagebox "No Model" "Please select a model first"
    else
      let* busy := gets is_streaming in
      if busy
      then messagebox "Please Wait" "Already processing a message"
      else
        modify (set_input_text "") >>
        add_message_to_display "User" message "user" >>
        append_message (user_message message) >>
        modify (set_is_streaming true) >>
        start_thread ThStreamResponse.

(** *** [stream_response] *)

Definition error_annotation (text : string) : string :=
  String "010" "[Error: " +:+ text +:+ "]".

(** The text part of one chunk: [if "content" in msg and msg["content"]]. *)
Definition take_content (msg : json) (response_text : string) : M string :=
  let* present := lift (py_in "content" msg) in
  if present then
    let* content := lift (py_getitem msg "content") in
    if truthy content then
      let* response_text' := lift (py_str_iadd response_text content) in
      root_after (CbAddToCurrentMessage (py_str content) "assistant") >>
      ret response_text'
    else ret response_text
  else ret response_text.

(** The tool-call part: [if "tool_calls" in msg and msg["tool_calls"]]. *)
Definition take_tool_calls (msg : json) (tool_calls : list json) : M (list json) :=
  let* present := lift (py_in "tool_calls" msg) in
  if present then
    let* calls := lift (py_getitem msg "tool_calls") in
    if truthy calls then lift (py_list_extend tool_calls calls)
    else ret tool_calls
  else ret tool_calls.

(** The [for chunk in ...] loop of [stream_response], with its two
    [break]s. *)
Fixpoint stream_response_loop (chunks : list json) (failure : option exn)
    (response_text : string) (tool_calls : list json)
  : M (string * list json) :=
  match chunks with
  | [] =>
      match failure with
      | Some e => raise e
      | None => ret (response_text, tool_calls)
      end
  | chunk :: rest =>
      let* err := lift (py_get chunk "error" JNull) in
      if truthy err then
        let* msg := lift (py_get chunk "message" JNull) in
        root_after (CbAddToCurrentMessage (error_annotation (py_str msg)) "error") >>
        ret (response_text, tool_calls)
      else
        let* has_message := lift (py_in "message" chunk) in
        let* '(response_text', tool_calls') :=
          (if has_message then
             let* msg := lift (py_getitem chunk "message") in
             let* response_text' := take_content msg response_text in
             let* tool_calls' := take_tool_calls msg tool_calls in
             ret (response_text', tool_calls')
           else ret (response_text, tool_calls)) in
        let* done := lift (py_get chunk "done" (JBool false)) in
        if truthy done then ret (response_text', tool_calls')
        else stream_response_loop rest failure response_text' tool_calls'
  end.

Definition request_payload (st : app) : json :=
  chat_payload (model_value (current_model st)) (messages st)
               (get_tool_definitions (tool_registry st)).

(** The handler of the outermost [except Exception] of both workers. *)
Definition worker_failed (e : exn) : M unit :=
  root_after (CbAddToCurrentMessage (error_annotation (exn_msg e)) "error") >>
  root_after CbFinishStreaming.

(** [stream_response], run by a worker thread; [s] is what the iterator
    returned by [self.client.chat_stream(...)] yields. *)
Definition stream_response (s : stream) : M unit :=
  try_except
    (root_after CbStartAssistantMessage >>
     let* payload := gets request_payload in
     log (EvRequest payload) >>
     let* '(response_text, tool_calls) :=
       stream_response_loop (chunks s) (failure s) "" [] in
     if truthy (JArr tool_calls)
     then root_after (CbHandleToolCalls tool_calls response_text)
     else
       (if truthy (JStr response_text)
        then append_message (assistant_message response_text)
        else ret tt) >>
       root_after CbFinishStreaming)
    worker_failed.

(** *** [handle_tool_calls] *)

Definition dispatch_tool (name arguments : json) : M string :=
  log (EvDispatch name arguments) >>
  let* tools := gets tool_registry in
  lift (execute_tool tools name arguments).

Fixpoint handle_tool_calls_loop (tool_calls : list json) : M unit :=
  match tool_calls with
  | [] => ret tt
  | tool_call :: rest =>
      let* function_info := lift (py_get tool_call "function" (JObj [])) in
      let* tool_name := lift (py_get function_info "name" (JStr "unknown")) in
      let* arguments := lift (py_get function_info "arguments" (JObj [])) in
      add_to_current_message
        (String "010" (String "010" "[Calling tool: ") +:+ py_str tool_name +:+ "]")
        "tool" >>
      let* result := dispatch_tool tool_name arguments in
      add_to_current_message (String "010" result +:+ String "010" "") "code" >>
      append_message (tool_message result) >>
      handle_tool_calls_loop rest
  end.

Definition handle_tool_calls (tool_calls : list json) (assistant_text : string)
  : M unit :=
  append_message (assistant_tool_message assistant_text tool_calls) >>
  handle_tool_calls_loop tool_calls >>
  start_thread ThStreamFinalResponse.

(** *** [stream_final_response] *)

Fixpoint stream_final_loop (chunks : list json) (failure : option exn)
    (response_text : string) : M string :=
  match chunks with
  | [] =>
      match failure with
      | Some e => raise e
      | None => ret response_text
      end
  | chunk :: rest =>
      let* err := lift (py_get chunk "error" JNull) in
      if truthy err then
        let* msg := lift (py_get chunk "message" JNull) in
        root_after (CbAddToCurrentMessage (error_annotation (py_str msg)) "error") >>
        ret response_text
      else
        let* has_message := lift (py_in "message" chunk) in
        let* response_text' :=
          (if has_message then
             let* msg := lift (py_getitem chunk "message") in
             let* present := lift (py_in "content" msg) in
             if present then
               let* content := lift (py_getitem msg "content") in
               if truthy content then
                 let* response_text' := lift (py_str_iadd response_text content) in
                 root_after (CbAddToCurrentMessage (py_str content) "assistant") >>
                 ret response_text'
               else ret response_text
             else ret response_text
           else ret response_text) in
        let* done := lift (py_get chunk "done" (JBool false)) in
        if truthy done then ret response_text'
        else stream_final_loop rest failure response_text'
  end.

Definition stream_final_response (s : stream) : M unit :=
  try_except
    (root_after (CbAddToCurrentMessage (String "010" "") "assistant") >>
     let* payload := gets request_payload in
     log (EvRequest payload) >>
     let* response_text := stream_final_loop (chunks s) (failure s) "" in
     (if truthy (JStr response_text)
      then append_message (assistant_message response_text)
      else ret tt) >>
     root_after CbFinishStreaming)
    worker_failed.

(** *** The event loop and the threads *)

Definition run_callback (cb : callback) : M unit :=
  match cb with
  | CbStartAssistantMessage => start_assistant_message
  | CbAddToCurrentMessage text tag => add_to_current_message text tag
  | CbHandleToolCalls tool_calls text => handle_tool_calls tool_calls text
  | CbFinishStreaming => finish_streaming
  end.

(** Tk runs one callback; an exception that leaves it is reported and
    the loop goes on. *)
Definition tk_call (cb : callback) (st : app) : app :=
  match run_callback cb st with
  | (st', Return _) => st'
  | (st', Raise e) => set_trace (trace st' ++ [EvCallbackError e]) st'
  end.

(** The main loop runs the queued callbacks in the order they were
    queued.  No callback of this program queues another one. *)
Definition mainloop (st : app) : app :=
  fold_left (fun st cb => tk_call cb st) (after_queue st) (set_after_queue [] st).

Definition run_thread (th : thread) (r : post_result) (st : app) : app :=
  let s := chat_stream (base_url st) r in
  match th with
  | ThStreamResponse => exec (stream_response s) st
  | ThStreamFinalResponse => exec (stream_final_response s) st
  end.

(** One schedule of the whole program: the main loop empties its queue,
    then the oldest started thread runs to its end against the next
    answer of the server, and so on until no thread is left or the
    server has no more answers.  A worker only queues callbacks and
    appends to [messages]; the callbacks that touch [messages] are
    queued last, so running a worker in one piece loses no behaviour. *)
Fixpoint run (net : list post_result) (st : app) : app :=
  let st := mainloop st in
  match net with
  | [] => st
  | r :: net' =>
      match threads st with
      | [] => st
      | th :: ths => run net' (run_thread th r (set_threads ths st))
      end
  end.

(** One user turn: the Send button, then the schedule. *)
Definition turn (net : list post_result) (st : app) : app :=
  run net (exec send_message st).

(** [OllamaChatApp.__init__], before the connection check. *)
Definition OllamaChatApp_init (home now : string) : app :=
  MkApp [] None false ToolRegistry_init
        (path_join (path_join home ".ollama_chat") "history")
        default_base_url "" "" [] [] [] [] ∅ now [].

(** [refresh_models], given the names [list_models] found. *)
Definition refresh_models (names : list string) (st : app) : app :=
  match names with
  | [] => set_dialogs (dialogs st ++ [("No Models", "No Ollama models found.")]) st
  | first :: _ =>
      set_current_model (Some first)
        (MkApp (messages st) (current_model st) (is_streaming st) (tool_registry st)
               (history_dir st) (base_url st) first (input_text st)
               (chat_display st) (dialogs st) (after_queue st) (threads st)
               (files st) (clock st) (trace st))
  end.

End WithRuntime.
End App.
Export App.

(* ===================================================================== *)
(** ** Stream fragments as the specification describes them              *)
(* ===================================================================== *)

Module Wire.

(** A tool-call request [{name, arguments}] and its form on the wire. *)
Record tool_call_request : Type := ToolCall {
  tc_name : string;
  tc_arguments : list (string * json);
}.

Definition encode_tool_call (tc : tool_call_request) : json :=
  JObj [("function", JObj [("name", JStr (tc_name tc));
                           ("arguments", JObj (tc_arguments tc))])].

(** The [message] part of a chunk: [{content?, tool_calls?}]. *)
Record message_part : Type := MessagePart {
  content : option string;
  tool_calls : option (list tool_call_request);
}.

(** One fragment: [{message?, done}] from the server, or the error
    marker of the transport client. *)
Inductive fragment : Type :=
| Chunk (message : option message_part) (done : bool)
| ErrorFragment (text : string).

Definition encode_message (m : message_part) : json :=
  JObj (match content m with Some s => [("content", JStr s)] | None => [] end
        ++ match tool_calls m with
           | Some tcs => [("tool_calls", JArr (map encode_tool_call tcs))]
           | None => []
           end).

Definition encode (f : fragment) : json :=
  match f with
  | Chunk m done =>
      JObj (match m with Some m => [("message", encode_message m)] | None => [] end
            ++ [("done", JBool done)])
  | ErrorFragment text => JObj [("error", JBool true); ("message", JStr text)]
  end.

(** The content delta and the tool calls one fragment carries. *)
Definition delta_of (f : fragment) : string :=
  match f with
  | Chunk (Some m) _ => default "" (content m)
  | _ => ""
  end.

Definition calls_of (f : fragment) : list tool_call_request :=
  match f with
  | Chunk (Some m) _ => default [] (tool_calls m)
  | _ => []
  end.

Definition is_done (f : fragment) : bool :=
  match f with Chunk _ done => done | ErrorFragment _ => false end.

Definition is_error (f : fragment) : bool :=
  match f with Chunk _ _ => false | ErrorFragment _ => true end.

(** A fragment that is neither the completion marker nor an error. *)
Definition is_body (f : fragment) : bool := negb (is_done f) && negb (is_error f).

Definition all_deltas (frs : list fragment) : string :=
  fold_right String.append "" (map delta_of frs).

Definition all_calls (frs : list fragment) : list tool_call_request :=
  concat (map calls_of frs).

(** The last fragment satisfies [final] and no fragment before it is
    terminal. *)
Fixpoint ends_with (final : fragment -> bool) (frs : list fragment) : bool :=
  match frs with
  | [] => false
  | f :: rest =>
      match rest with
      | [] => final f
      | _ :: _ => is_body f && ends_with final rest
      end
  end.

(** The sequence ends with [done=true]. *)
Definition ends_with_done (frs : list fragment) : bool := ends_with is_done frs.

(** The sequence ends with an error fragment. *)
Definition ends_with_error (frs : list fragment) : bool := ends_with is_error frs.

Definition no_tool_calls (frs : list fragment) : bool :=
  match all_calls frs with [] => true | _ :: _ => false end.

(** The stream an iterator yields for a sequence of fragments. *)
Definition stream_of (frs : list fragment) : stream :=
  Stream (map encode frs) None.

End Wire.
Export Wire.

(* ===================================================================== *)
(** ** A runtime to compute with                                         *)
(* ===================================================================== *)

(** A JSON printer and parser for strings of code points below 256, in
    the output format of Python's [json] module, and a machine on which
    every file can be created.  Most theorems below hold for every
    [Runtime], and this one serves to run the model on concrete inputs;
    the theorems on what [json.load] reads back from a file that
    [json.dump] wrote are about this printer and this parser. *)
Module Machine.

Definition hex_digit (n : nat) : ascii :=
  ascii_of_nat (if (n <? 10)%nat then 48 + n else 87 + n).

Definition escape_char (c : ascii) : string :=
  let n := nat_of_ascii c in
  if Ascii.eqb c "034" then String "\" (String "034" "")
  else if Ascii.eqb c "\" then String "\" (String "\" "")
  else if (n =? 10)%nat then String "\" "n"
  else if (n =? 13)%nat then String "\" "r"
  else if (n =? 9)%nat then String "\" "t"
  else if (n =? 8)%nat then String "\" "b"
  else if (n =? 12)%nat then String "\" "f"
  else if ((n <? 32) || (126 <? n))%nat then
    String "\" (String "u" (String "0" (String "0"
      (String (hex_digit (n / 16)) (String (hex_digit (n mod 16)) "")))))
  else String c "".

Fixpoint escape (s : string) : string :=
  match s with
  | EmptyString => EmptyString
  | String c rest => escape_char c +:+ escape rest
  end.

Definition quote (s : string) : string :=
  String "034" (escape s +:+ String "034" "").

Fixpoint spaces (n : nat) : string :=
  match n with O => "" | S n => String " " (spaces n) end.

(** [json.dumps(v)] *)
Fixpoint dumps (v : json) : string :=
  match v with
  | JNull => "null"
  | JBool true => "true"
  | JBool false => "false"
  | JNum n => str_of_Z n
  | JStr s => quote s
  | JArr xs =>
      "[" +:+ (fix items (xs : list json) : string :=
                 match xs with
                 | [] => ""
                 | x :: rest =>
                     dumps x +:+ match rest with
                                | [] => ""
                                | _ :: _ => ", " +:+ items rest
                                end
                 end) xs +:+ "]"
  | JObj kvs =>
      "{" +:+ (fix members (kvs : list (string * json)) : string :=
                 match kvs with
                 | [] => ""
                 | (k, x) :: rest =>
                     quote k +:+ ": " +:+ dumps x
                     +:+ match rest with
                         | [] => ""
                         | _ :: _ => ", " +:+ members rest
                         end
                 end) kvs +:+ "}"
  end.

Definition newline (depth : nat) : string := String "010" (spaces (2 * depth)).

(** [json.dumps(v, indent=2)], printed at nesting depth [depth] *)
Fixpoint dumps_at (depth : nat) (v : json) : string :=
  match v with
  | JNull => "null"
  | JBool true => "true"
  | JBool false => "false"
  | JNum n => str_of_Z n
  | JStr s => quote s
  | JArr [] => "[]"
  | JArr xs =>
      "[" +:+ newline (S depth)
      +:+ (fix items (xs : list json) : string :=
             match xs with
             | [] => ""
             | x :: rest =>
                 dumps_at (S depth) x
                 +:+ match rest with
                     | [] => ""
                     | _ :: _ => "," +:+ newline (S depth) +:+ items rest
                     end
             end) xs
      +:+ newline depth +:+ "]"
  | JObj [] => "{}"
  | JObj kvs =>
      "{" +:+ newline (S depth)
      +:+ (fix members (kvs : list (string * json)) : string :=
             match kvs with
             | [] => ""
             | (k, x) :: rest =>
                 quote k +:+ ": " +:+ dumps_at (S depth) x
                 +:+ match rest with
                     | [] => ""
                     | _ :: _ => "," +:+ newline (S depth) +:+ members rest
                     end
             end) kvs
      +:+ newline depth +:+ "}"
  end.

(** The items of a list and the members of a dictionary as [dumps_at]
    prints them between the brackets, at nesting depth [depth]. *)
Section At.
Variable depth : nat.



End At.

(** [repr(v)] *)
Fixpoint repr (v : json) : string :=
  match v with
  | JNull => "None"
  | JBool true => "True"
  | JBool false => "False"
  | JNum n => str_of_Z n
  | JStr s => "'" +:+ s +:+ "'"
  | JArr xs =>
      "[" +:+ (fix items (xs : list json) : string :=
                 match xs with
                 | [] => ""
                 | x :: rest =>
                     repr x +:+ match rest with
                               | [] => ""
                               | _ :: _ => ", " +:+ items rest
                               end
                 end) xs +:+ "]"
  | JObj kvs =>
      "{" +:+ (fix members (kvs : list (string * json)) : string :=
                 match kvs with
                 | [] => ""
                 | (k, x) :: rest =>
                     "'" +:+ k +:+ "': " +:+ repr x
                     +:+ match rest with
                         | [] => ""
                         | _ :: _ => ", " +:+ members rest
                         end
                 end) kvs +:+ "}"
  end.

(** *** Parsing *)

Definition is_json_space (c : ascii) : bool :=
  let n := nat_of_ascii c in
  ((n =? 32) || (n =? 9) || (n =? 10) || (n =? 13))%nat.

Fixpoint skip_ws (s : string) : string :=
  match s with
  | String c rest => if is_json_space c then skip_ws rest else s
  | EmptyString => EmptyString
  end.

Definition is_digit (c : ascii) : bool :=
  let n := nat_of_ascii c in ((48 <=? n) && (n <=? 57))%nat.

Fixpoint parse_digits (s : string) (acc : Z) : Z * string :=
  match s with
  | String c rest =>
      if is_digit c
      then parse_digits rest (10 * acc + Z.of_nat (nat_of_ascii c - 48))%Z
      else (acc, s)
  | EmptyString => (acc, s)
  end.

Definition hex_value (c : ascii) : option nat :=
  let n := nat_of_ascii c in
  if ((48 <=? n) && (n <=? 57))%nat then Some (n - 48)
  else if ((97 <=? n) && (n <=? 102))%nat then Some (n - 87)
  else if ((65 <=? n) && (n <=? 70))%nat then Some (n - 55)
  else None.

(** The characters of a string literal after its opening quote. *)
Fixpoint parse_chars (fuel : nat) (s : string) : option (string * string) :=
  match fuel with
  | O => None
  | S fuel =>
      match s with
      | EmptyString => None
      | String c rest =>
          if Ascii.eqb c "034" then Some ("", rest)
          else if Ascii.eqb c "\" then
            match rest with
            | String e rest' =>
                let plain (d : ascii) :=
                  match parse_chars fuel rest' with
                  | Some (text, tail) => Some (String d text, tail)
                  | None => None
                  end in
                if Ascii.eqb e "n" then plain "010"%char
                else if Ascii.eqb e "r" then plain "013"%char
                else if Ascii.eqb e "t" then plain "009"%char
                else if Ascii.eqb e "b" then plain "008"%char
                else if Ascii.eqb e "f" then plain "012"%char
                else if Ascii.eqb e "u" then
                  match rest' with
                  | String "0" (String "0" (String h (String l rest''))) =>
                      match hex_value h, hex_value l, parse_chars fuel rest'' with
                      | Some hi, Some lo, Some (text, tail) =>
                          Some (String (ascii_of_nat (16 * hi + lo)) text, tail)
                      | _, _, _ => None
                      end
                  | _ => None
                  end
                else if Ascii.eqb e "034" || Ascii.eqb e "\" || Ascii.eqb e "/"
                then plain e
                else None
            | EmptyString => None
            end
          else if (nat_of_ascii c <? 32)%nat then None
          else
            match parse_chars fuel rest with
            | Some (text, tail) => Some (String c text, tail)
            | None => None
            end
      end
  end.

(** The dictionary built from the pairs of an object, in reading order. *)
Definition dict_of_pairs (kvs : list (string * json)) : list (string * json) :=
  fold_left (fun d kv => dict_set (fst kv) (snd kv) d) kvs [].

Definition expect (word : string) (v : json) (s : string) : option (json * string) :=
  if String.prefix word s
  then Some (v, String.substring (String.length word)
                                 (String.length s - String.length word) s)
  else None.

(** One value at the head of [s]; [items] and [members] read what
    follows an opening bracket or brace. *)
Fixpoint parse_value (fuel : nat) (s : string) : option (json * string) :=
  match fuel with
  | O => None
  | S fuel =>
      match skip_ws s with
      | EmptyString => None
      | String c rest =>
          if Ascii.eqb c "n" then expect "null" JNull (String c rest)
          else if Ascii.eqb c "t" then expect "true" (JBool true) (String c rest)
          else if Ascii.eqb c "f" then expect "false" (JBool false) (String c rest)
          else if Ascii.eqb c "034" then
            match parse_chars (S (String.length rest)) rest with
            | Some (text, tail) => Some (JStr text, tail)
            | None => None
            end
          else if Ascii.eqb c "-" then
            match rest with
            | String d _ =>
                if is_digit d
                then let '(n, tail) := parse_digits rest 0 in Some (JNum (- n), tail)
                else None
            | EmptyString => None
            end
          else if is_digit c then
            let '(n, tail) := parse_digits (String c rest) 0 in Some (JNum n, tail)
          else if Ascii.eqb c "[" then
            match skip_ws rest with
            | String "]" tail => Some (JArr [], tail)
            | _ =>
                match parse_items fuel rest with
                | Some (xs, tail) => Some (JArr xs, tail)
                | None => None
                end
            end
          else if Ascii.eqb c "{" then
            match skip_ws rest with
            | String "}" tail => Some (JObj [], tail)
            | _ =>
                match parse_members fuel rest with
                | Some (kvs, tail) => Some (JObj (dict_of_pairs kvs), tail)
                | None => None
                end
            end
          else None
      end
  end
with parse_items (fuel : nat) (s : string) : option (list json * string) :=
  match fuel with
  | O => None
  | S fuel =>
      match parse_value fuel s with
      | Some (x, tail) =>
          match skip_ws tail with
          | String "]" tail' => Some ([x], tail')
          | String "," tail' =>
              match parse_items fuel tail' with
              | Some (xs, tail'') => Some (x :: xs, tail'')
              | None => None
              end
          | _ => None
          end
      | None => None
      end
  end
with parse_members (fuel : nat) (s : string)
  : option (list (string * json) * string) :=
  match fuel with
  | O => None
  | S fuel =>
      match skip_ws s with
      | String "034" rest =>
          match parse_chars (S (String.length rest)) rest with
          | Some (k, tail) =>
              match skip_ws tail with
              | String ":" tail' =>
                  match parse_value fuel tail' with
                  | Some (x, tail'') =>
                      match skip_ws tail'' with
                      | String "}" tail3 => Some ([(k, x)], tail3)
                      | String "," tail3 =>
                          match parse_members fuel tail3 with
                          | Some (kvs, tail4) => Some ((k, x) :: kvs, tail4)
                          | None => None
                          end
                      | _ => None
                      end
                  | None => None
                  end
              | _ => None
              end
          | None => None
          end
      | _ => None
      end
  end.

(** [json.loads(text)] *)
Definition loads (text : string) : option json :=
  match parse_value (S (String.length text)) text with
  | Some (v, tail) =>
      match skip_ws tail with
      | EmptyString => Some v
      | String _ _ => None
      end
  | None => None
  end.






(** [line.decode('utf-8')] for text of code points below 256: a byte
    below 128 stands for itself, the bytes 194 and 195 start a sequence
    of two.  Every other byte starts no sequence this machine reads. *)
Fixpoint utf8_decode (line : string) : option string :=
  match line with
  | EmptyString => Some EmptyString
  | String c rest =>
      let n := nat_of_ascii c in
      if (n <? 128)%nat then option_map (String c) (utf8_decode rest)
      else if ((n =? 194) || (n =? 195))%nat then
        match rest with
        | String d rest' =>
            let m := nat_of_ascii d in
            if ((128 <=? m) && (m <? 192))%nat
            then option_map (String (ascii_of_nat (64 * (n - 194) + m)))
                            (utf8_decode rest')
            else None
        | EmptyString => None
        end
      else None
  end.

(** [json.loads(line)] on the bytes of a line *)
Definition loads_line (line : string) : outcome json :=
  match utf8_decode line with
  | None => Raise (Exn UnicodeDecodeError "'utf-8' codec can't decode bytes")
  | Some text =>
      match loads text with
      | Some v => Return v
      | None => Raise (Exn JSONDecodeError "Expecting value")
      end
  end.

#[export] Instance runtime : Runtime := {|
  py_repr := repr;
  json_loads := loads;
  json_loads_line := loads_line;
  json_dumps := dumps;
  json_dumps_indent := dumps_at 0;
  open_w_ok := fun _ => true;
  market_report := JObj [("success", JBool true); ("data", JArr []);
                         ("timestamp", JStr "now")];
|}.

End Machine.

(** The session of the first example scenario of the specification,
    after the user message has been appended. *)
Definition example_session : app :=
  set_messages [user_message "What's 2+2?"]
    (set_is_streaming true
       (refresh_models ["llama2"]
          (OllamaChatApp_init (RT := Machine.runtime) "/home/user" "20240101_120000"))).

(* ===================================================================== *)
(** ** Vocabulary of the properties                                      *)
(* ===================================================================== *)

Module Obs.

(** Several callbacks queued one after the other. *)
Definition post_all (cbs : list callback) (st : app) : app :=
  set_after_queue (after_queue st ++ cbs) st.

(** Callbacks that only write to the chat display. *)
Definition is_display (cb : callback) : bool :=
  match cb with
  | CbStartAssistantMessage | CbAddToCurrentMessage _ _ => true
  | CbHandleToolCalls _ _ | CbFinishStreaming => false
  end.

(** The display updates queued for a sequence of fragments: one for
    each content delta that is not empty, one for an error marker. *)
Definition shown_one (f : fragment) : list callback :=
  match f with
  | ErrorFragment text =>
      [CbAddToCurrentMessage (error_annotation text) "error"]
  | Chunk _ _ =>
      if String.eqb (delta_of f) "" then []
      else [CbAddToCurrentMessage (delta_of f) "assistant"]
  end.

Definition shown (frs : list fragment) : list callback := flat_map shown_one frs.

Definition is_request (e : event) : bool :=
  match e with EvRequest _ => true | _ => false end.

Definition is_dispatch (e : event) : bool :=
  match e with EvDispatch _ _ => true | _ => false end.

(** The requests issued and the tools dispatched, read off a trace. *)
Definition requests_in (t : list event) : list event := List.filter is_request t.
Definition dispatches_in (t : list event) : list event := List.filter is_dispatch t.

(** The session is back in the ready state. *)
Definition idle (st : app) : Prop :=
  is_streaming st = false /\ threads st = [] /\ after_queue st = [].

(** What the specification says [execute] returns: the serialized
    result of the handler, or a structured error payload when the name
    is not registered or the handler fails. *)
Definition execute_spec `{RT : Runtime} (tools : registry) (name : string)
    (arguments : json) : string :=
  match dict_find name tools with
  | None => error_payload ("Tool '" +:+ name +:+ "' not found")
  | Some info =>
      match call_with_kwargs (tool_function info) arguments with
      | Return result => json_dumps_indent result
      | Raise e => error_payload ("Error executing tool: " +:+ exn_msg e)
      end
  end.

(** What one display callback writes. *)
Definition display_entry (text tag : string) : string * string :=
  if is_substring "```" text || String.eqb tag "code"
  then (text, "code") else (text, tag).

Definition entries_of (cb : callback) : list (string * string) :=
  match cb with
  | CbStartAssistantMessage => [(String "010" "Assistant: ", "assistant")]
  | CbAddToCurrentMessage text tag => [display_entry text tag]
  | CbHandleToolCalls _ _ | CbFinishStreaming => []
  end.


(** The HTTP request fails: [requests.post] raises one of the
    [requests] exceptions (connection refused, timeout, ...), or the
    response carries an error status. *)
Definition request_failure (url : string) (r : post_result) : option exn :=
  match r with
  | PostRaises e => if is_RequestException (exn_kind e) then Some e else None
  | PostResponse status_code reason _ _ =>
      if ((400 <=? status_code) && (status_code <? 600))%Z
      then Some (Exn HTTPError
                   (str_of_Z status_code
                    +:+ (if (status_code <? 500)%Z then " Client Error: "
                         else " Server Error: ")
                    +:+ reason +:+ " for url: " +:+ url))
      else None
  end.

(** The state after the display callbacks [cbs] have run. *)
Definition show_all (cbs : list callback) (st : app) : app :=
  set_chat_display (chat_display st ++ flat_map entries_of cbs) st.

Section WithRuntime.
Context `{RT : Runtime}.

(** [json.loads] returns on the line, or raises [json.JSONDecodeError]:
    the line does not end the loop of [chat_stream]. *)
Definition harmless (line : string) : Prop :=
  match json_loads_line line with
  | Return _ => True
  | Raise e => is_JSONDecodeError (exn_kind e) = true
  end.

Definition calling_text (name : json) : string :=
  String "010" (String "010" "[Calling tool: ") +:+ py_str name +:+ "]".

Definition result_text (result : string) : string :=
  String "010" result +:+ String "010" "".

(** The state after one tool call [name(arguments)] that gave [result]
    has gone through the loop of [handle_tool_calls]. *)
Definition answered (name arguments : json) (result : string) (st : app) : app :=
  set_trace (trace st ++ [EvDispatch name arguments; EvAppend (tool_message result)])
    (set_messages (messages st ++ [tool_message result])
       (set_chat_display
          (chat_display st ++ [display_entry (calling_text name) "tool";
                               display_entry (result_text result) "code"])
          st)).

(** The result message of a well-formed tool-call request. *)
Definition result_of (tools : registry) (tc : tool_call_request) : string :=
  execute_spec tools (tc_name tc) (JObj (tc_arguments tc)).

Definition answer_call (st : app) (tc : tool_call_request) : app :=
  answered (JStr (tc_name tc)) (JObj (tc_arguments tc))
           (result_of (tool_registry st) tc) st.

Definition answer_all (tcs : list tool_call_request) (st : app) : app :=
  fold_left answer_call tcs st.

(** What one dispatched call leaves in the trace: the dispatch, then
    the append of its result message. *)
Definition tool_events (tools : registry) (tc : tool_call_request) : list event :=
  [EvDispatch (JStr (tc_name tc)) (JObj (tc_arguments tc));
   EvAppend (tool_message (result_of tools tc))].

End WithRuntime.

(** A computation that changes the state only by queueing display
    callbacks. *)
Definition queues_display {A : Type} (m : M A) : Prop :=
  forall st, exists cbs,
    fst (m st) = post_all cbs st /\ forallb is_display cbs = true.

End Obs.
Export Obs.

(* ===================================================================== *)
(** ** ollama_client.py: the requests that do not stream                 *)
(* ===================================================================== *)

Module Transport.

(** What the HTTP layer does with a [requests.get], or with a
    [requests.post] that does not stream: the call raises, or it
    returns a response with a status line and a body on which
    [response.json()] gives a value or raises. *)
Inductive http_result : Type :=
| HttpRaises (e : exn)
| HttpResponse (status_code : Z) (reason : string) (body : outcome json).

Definition tags_url (base_url : string) : string := base_url +:+ "/api/tags".

(** [list_models]: the [models] entry of the answer; every exception is
    caught and gives the empty list. *)
Definition list_models (base_url : string) (r : http_result) : json :=
  match r with
  | HttpRaises _ => JArr []
  | HttpResponse status_code reason body =>
      match raise_for_status (tags_url base_url) status_code reason with
      | Raise _ => JArr []
      | Return _ =>
          match body with
          | Raise _ => JArr []
          | Return data =>
              match py_get data "models" (JArr []) with
              | Return models => models
              | Raise _ => JArr []
              end
          end
      end
  end.

(** The request body of [chat]. *)
Definition chat_request (model : json) (messages tools : list json) : json :=
  JObj ([("model", model); ("messages", JArr messages); ("stream", JBool false)]
        ++ (if truthy (JArr tools) then [("tools", JArr tools)] else [])).

(** The [except requests.exceptions.RequestException] clause of [chat]:
    the error record is returned, any other exception leaves the call. *)
Definition chat_failed (e : exn) : outcome json :=
  if is_RequestException (exn_kind e) then Return (error_chunk e) else Raise e.

(** [chat]: the decoded answer of a request that does not stream. *)
Definition chat (base_url : string) (r : http_result) : outcome json :=
  match r with
  | HttpRaises e => chat_failed e
  | HttpResponse status_code reason body =>
      match raise_for_status (chat_url base_url) status_code reason with
      | Raise e => chat_failed e
      | Return _ =>
          match body with
          | Return data => Return data
          | Raise e => chat_failed e
          end
      end
  end.

(** [is_available]: the probe answered with status 200; the bare
    [except] turns every failure into [False]. *)
Definition is_available (r : http_result) : bool :=
  match r with
  | HttpRaises _ => false
  | HttpResponse status_code _ _ => (status_code =? 200)%Z
  end.

End Transport.
Export Transport.

(* ===================================================================== *)
(** ** ollama_chat.py: the list of saved chats                           *)
(* ===================================================================== *)

Module History.

(** What [os.path.join(dir, name)] puts in front of a relative [name]. *)
Definition dir_prefix (dir : string) : string :=
  if String.eqb dir "" then ""
  else if String.eqb (String.substring (String.length dir - 1) 1 dir) "/" then dir
  else dir +:+ "/".

(** [s] without its prefix [p]. *)
Fixpoint strip_prefix (p s : string) : option string :=
  match p with
  | EmptyString => Some s
  | String a p' =>
      match s with
      | EmptyString => None
      | String b s' => if Ascii.eqb a b then strip_prefix p' s' else None
      end
  end.

(** The name of a directory entry: not empty and without a slash. *)
Definition is_entry_name (name : string) : bool :=
  negb (String.eqb name "") && negb (is_substring "/" name).

(** The name under which [path] is an entry of directory [dir]. *)
Definition entry_name (dir path : string) : option string :=
  match strip_prefix (dir_prefix dir) path with
  | Some name => if is_entry_name name then Some name else None
  | None => None
  end.

(** [os.listdir(dir)]: the names of the files in [dir], in the
    arbitrary order of the file system.  Subdirectories are not part of
    the model; [list_chats] passes them over, [open] raises on them. *)
Definition listdir (dir : string) (files : gmap string string) : list string :=
  omap (entry_name dir) (map fst (map_to_list files)).

(** [s.endswith(suffix)] *)
Definition str_ends_with (suffix s : string) : bool :=
  String.prefix (str_rev suffix) (str_rev s).

(** [len(v)] *)
Definition py_len (v : json) : outcome Z :=
  match v with
  | JArr xs => Return (Z.of_nat (length xs))
  | JStr s => Return (Z.of_nat (String.length s))
  | JObj kvs => Return (Z.of_nat (length kvs))
  | _ => Raise (Exn TypeError
                  ("object of type '" +:+ type_name v +:+ "' has no len()"))
  end.

(** The summary [list_chats] builds from a decoded file. *)
Definition chat_summary (filename filepath : string) (data : json) : outcome json :=
  match py_get data "model" (JStr "unknown") with
  | Raise e => Raise e
  | Return model =>
      match py_get data "timestamp" (JStr "") with
      | Raise e => Raise e
      | Return timestamp =>
          match py_get data "messages" (JArr []) with
          | Raise e => Raise e
          | Return msgs =>
              match py_len msgs with
              | Raise e => Raise e
              | Return count =>
                  Return (JObj [("filename", JStr filename);
                                ("filepath", JStr filepath);
                                ("model", model);
                                ("timestamp", timestamp);
                                ("message_count", JNum count)])
              end
          end
      end
  end.

(** [sorted(names, reverse=True)]: strings in descending order. *)
Fixpoint insert_desc (x : string) (l : list string) : list string :=
  match l with
  | [] => [x]
  | y :: l' => if String.leb y x then x :: l else y :: insert_desc x l'
  end.

Definition sorted_desc (l : list string) : list string :=
  fold_right insert_desc [] l.

Section WithRuntime.
Context `{RT : Runtime}.

(** The body of the loop of [list_chats] for one file name: the summary
    of the file, or the exception the [except] clause reports. *)
Definition read_summary (dir : string) (files : gmap string string)
    (filename : string) : outcome json :=
  let filepath := path_join dir filename in
  match load_chat filepath files with
  | Return data => chat_summary filename filepath data
  | Raise e => Raise e
  end.

Fixpoint list_chats_loop (dir : string) (files : gmap string string)
    (names : list string) : list json :=
  match names with
  | [] => []
  | filename :: rest =>
      if str_ends_with ".json" filename then
        match read_summary dir files filename with
        | Return entry => entry :: list_chats_loop dir files rest
        | Raise _ => list_chats_loop dir files rest
        end
      else list_chats_loop dir files rest
  end.

(** The file names for which the loop appends a summary. *)
Definition is_listed (dir : string) (files : gmap string string)
    (filename : string) : bool :=
  str_ends_with ".json" filename
  && match read_summary dir files filename with
     | Return _ => true
     | Raise _ => false
     end.

(** [list_chats]; the history directory exists, [__init__] made it. *)
Definition list_chats (dir : string) (files : gmap string string) : list json :=
  list_chats_loop dir files (sorted_desc (listdir dir files)).

End WithRuntime.

(** A list of strings in descending order. *)
Fixpoint descending (l : list string) : Prop :=
  match l with
  | [] => True
  | x :: l' => Forall (fun y => String.leb y x = true) l' /\ descending l'
  end.

(** The file names of a list of summaries. *)
Definition summary_names (entries : list json) : list json :=
  omap (fun entry => match entry with
                     | JObj kvs => dict_lookup "filename" kvs
                     | _ => None
                     end) entries.

End History.
Export History.

(* ===================================================================== *)
(** ** ollama_chat.py: the New Chat button                               *)
(* ===================================================================== *)

Module Window.

Section WithRuntime.
Context `{RT : Runtime}.

(** [new_chat]; [answer] is what the user answers to the question the
    method asks when the history is not empty. *)
Definition new_chat (answer : bool) : M unit :=
  let* msgs := gets messages in
  if truthy (JArr msgs) then
    messagebox "New Chat" "Start a new chat? Current chat will be saved." >>
    if answer then
      (if (0 <? length msgs)%nat
       then try_except auto_save
              (fun e => messagebox "Error" ("Failed to save chat: " +:+ exn_msg e))
       else ret tt) >>
      modify (set_messages []) >>
      modify (set_chat_display [])
    else ret tt
  else ret tt.

End WithRuntime.
End Window.
Export Window.

(* ===================================================================== *)
(** ** Relations between the states of a session                         *)
(* ===================================================================== *)

Module Inv.

(** Every run of [m] takes a state to one related to it by [R]. *)
Definition steps (R : app -> app -> Prop) {A : Type} (m : M A) : Prop :=
  forall st, R st (fst (m st)).

(** The history only grows: the old one is a prefix of the new one. *)
Definition grows (st st' : app) : Prop :=
  exists new, messages st' = messages st ++ new.

Definition is_callback_error (e : event) : bool :=
  match e with EvCallbackError _ => true | _ => false end.

(** The exceptions that left a Tk callback, read off a trace. *)
Definition callback_errors (t : list event) : list event :=
  List.filter is_callback_error t.

(** Nothing happens but appends to the history, tool dispatches and
    display updates: no request, no thread, no callback, no reported
    exception, and the busy flag, the registry, the model and the
    files stay. *)
Definition calm (st st' : app) : Prop :=
  requests_in (trace st') = requests_in (trace st)
  /\ callback_errors (trace st') = callback_errors (trace st)
  /\ threads st' = threads st
  /\ after_queue st' = after_queue st
  /\ is_streaming st' = is_streaming st
  /\ tool_registry st' = tool_registry st
  /\ current_model st' = current_model st
  /\ files st' = files st
  /\ grows st st'.

(** A tool-call entry whose fields cannot be read with [.get]: it is
    not a mapping, or its [function] is present and not a mapping. *)
Definition unreadable_call (v : json) : bool :=
  match v with
  | JObj kvs =>
      match dict_lookup "function" kvs with
      | None | Some (JObj _) => false
      | Some _ => true
      end
  | _ => true
  end.

(** Names are unique in a registry and every record sits under its own
    name. *)
Definition registry_ok (tools : registry) : Prop :=
  NoDup (map fst tools)
  /\ Forall (fun entry => tool_name (snd entry) = fst entry) tools.

(** The name a tool definition announces. *)
Definition definition_name (definition : json) : option json :=
  match definition with
  | JObj kvs =>
      match dict_lookup "function" kvs with
      | Some (JObj fields) => dict_lookup "name" fields
      | _ => None
      end
  | _ => None
  end.

End Inv.
Export Inv.

(* ===================================================================== *)
(** ** Basic facts                                                       *)
(* ===================================================================== *)

Lemma str_app_cons (c : ascii) (s t : string) :
  String c s +:+ t = String c (s +:+ t).
Proof. reflexivity. Qed.

Lemma str_app_nil_l (s : string) : "" +:+ s = s.
Proof. reflexivity. Qed.

Lemma str_app_nil_r (s : string) : s +:+ "" = s.
Proof.
  induction s as [|c s IH]; [reflexivity |].
  now rewrite str_app_cons, IH.
Qed.

Lemma str_app_assoc (a b c : string) : (a +:+ b) +:+ c = a +:+ (b +:+ c).
Proof.
  induction a as [|x a IH]; [reflexivity |].
  now rewrite !str_app_cons, IH.
Qed.

(** Unfold the monad and the field updates, and nothing else. *)
Ltac run_m :=
  cbv beta iota zeta delta
    [bind ret raise lift gets modify try_except exec log append_message
     root_after start_thread display_insert messagebox post_all
     set_messages set_current_model set_is_streaming set_input_text
     set_chat_display set_dialogs set_after_queue set_threads set_files
     set_trace messages current_model is_streaming tool_registry history_dir
     base_url model_var input_text chat_display dialogs after_queue threads
     files clock trace request_payload worker_failed id fst snd
     chunks failure stream_of].

Ltac run_m_in H :=
  cbv beta iota zeta delta
    [bind ret raise lift gets modify try_except exec log append_message
     root_after start_thread display_insert messagebox post_all
     set_messages set_current_model set_is_streaming set_input_text
     set_chat_display set_dialogs set_after_queue set_threads set_files
     set_trace messages current_model is_streaming tool_registry history_dir
     base_url model_var input_text chat_display dialogs after_queue threads
     files clock trace request_payload worker_failed id fst snd
     chunks failure stream_of] in H.

Lemma post_all_nil (st : app) : post_all [] st = st.
Proof. destruct st; unfold post_all; simpl. now rewrite app_nil_r. Qed.

Lemma post_all_app (a b : list callback) (st : app) :
  post_all b (post_all a st) = post_all (a ++ b) st.
Proof. destruct st; unfold post_all; simpl. now rewrite app_assoc. Qed.

Lemma ends_with_inv (final : fragment -> bool) (frs : list fragment) :
  ends_with final frs = true ->
  exists body last,
    frs = body ++ [last] /\ forallb is_body body = true /\ final last = true.
Proof.
  induction frs as [|f rest IH]; [discriminate |].
  destruct rest as [|g rest'].
  - intros H. exists [], f. auto.
  - cbn [ends_with]. intros H. apply andb_true_iff in H as [Hf H].
    destruct (IH H) as (body & last & E & Hb & Hl).
    exists (f :: body), last. rewrite E. cbn. rewrite Hf, Hb. auto.
Qed.

Lemma all_deltas_app (a b : list fragment) :
  all_deltas (a ++ b) = all_deltas a +:+ all_deltas b.
Proof.
  unfold all_deltas. induction a as [|f a IH]; [reflexivity |].
  cbn. rewrite IH. now rewrite str_app_assoc.
Qed.

Lemma all_calls_app (a b : list fragment) :
  all_calls (a ++ b) = all_calls a ++ all_calls b.
Proof. unfold all_calls. now rewrite map_app, concat_app. Qed.

Lemma shown_app (a b : list fragment) : shown (a ++ b) = shown a ++ shown b.
Proof. unfold shown. now rewrite flat_map_app. Qed.

Lemma shown_cons (f : fragment) (frs : list fragment) :
  shown (f :: frs) = shown [f] ++ shown frs.
Proof. unfold shown. cbn. now rewrite app_nil_r. Qed.

Section Loop.
Context `{RT : Runtime}.

(** One fragment that is not terminal: its delta and its calls are
    accumulated, its delta is queued for display, the loop goes on. *)
Lemma stream_response_loop_step m rest fail text calls st :
  stream_response_loop (encode (Chunk m false) :: rest) fail text calls st
  = stream_response_loop rest fail
      (text +:+ delta_of (Chunk m false))
      (calls ++ map encode_tool_call (calls_of (Chunk m false)))
      (post_all (shown [Chunk m false]) st).
Proof.
  destruct st.
  destruct m as [[[[|c s]|] [[|tc tcs]|]]|];
    cbn; rewrite ?str_app_nil_r, ?app_nil_r, ?post_all_nil; reflexivity.
Qed.

(** The fragment with [done=true]: the same, and the loop ends. *)
Lemma stream_response_loop_done m rest fail text calls st :
  stream_response_loop (encode (Chunk m true) :: rest) fail text calls st
  = (post_all (shown [Chunk m true]) st,
     Return (text +:+ delta_of (Chunk m true),
             calls ++ map encode_tool_call (calls_of (Chunk m true)))).
Proof.
  destruct st.
  destruct m as [[[[|c s]|] [[|tc tcs]|]]|];
    cbn; rewrite ?str_app_nil_r, ?app_nil_r, ?post_all_nil; reflexivity.
Qed.

(** An error fragment: the annotation is queued and the loop ends with
    what it has accumulated. *)
Lemma stream_response_loop_error t rest fail text calls st :
  stream_response_loop (encode (ErrorFragment t) :: rest) fail text calls st
  = (post_all (shown [ErrorFragment t]) st, Return (text, calls)).
Proof. destruct st. reflexivity. Qed.

Lemma stream_response_loop_body body rest fail text calls st :
  forallb is_body body = true ->
  stream_response_loop (map encode body ++ rest) fail text calls st
  = stream_response_loop rest fail
      (text +:+ all_deltas body)
      (calls ++ map encode_tool_call (all_calls body))
      (post_all (shown body) st).
Proof.
  revert text calls st.
  induction body as [|f body IH]; intros text calls st Hb.
  - cbn. now rewrite str_app_nil_r, app_nil_r, post_all_nil.
  - cbn in Hb. apply andb_true_iff in Hb as [Hf Hb].
    destruct f as [m [|]|t]; try discriminate.
    cbn [map Datatypes.app]. rewrite stream_response_loop_step, (IH _ _ _ Hb).
    rewrite post_all_app, str_app_assoc, <- app_assoc, <- map_app.
    now rewrite (shown_cons _ body).
Qed.

(** A sequence that ends with its first terminal fragment is read to
    the end: the loop returns all its deltas and all its calls. *)
Lemma stream_response_loop_terminated frs fail st :
  ends_with (fun f => is_done f || is_error f) frs = true ->
  stream_response_loop (map encode frs) fail "" [] st
  = (post_all (shown frs) st,
     Return (all_deltas frs, map encode_tool_call (all_calls frs))).
Proof.
  intros H. apply ends_with_inv in H as (body & last & -> & Hb & Hl).
  rewrite map_app, (stream_response_loop_body _ _ _ _ _ _ Hb).
  rewrite all_deltas_app, all_calls_app, shown_app, map_app, <- post_all_app.
  cbn [map]. destruct last as [m [|]|t]; try discriminate.
  - rewrite stream_response_loop_done. cbn.
    unfold all_deltas, all_calls. cbn. now rewrite str_app_nil_r, !app_nil_r.
  - rewrite stream_response_loop_error. cbn.
    now rewrite !str_app_nil_r, !app_nil_r.
Qed.

(** [stream_response] on such a sequence is a straight-line program. *)
Lemma stream_response_terminated frs st :
  ends_with (fun f => is_done f || is_error f) frs = true ->
  stream_response (stream_of frs) st
  = (root_after CbStartAssistantMessage >>
     log (EvRequest (request_payload st)) >>
     modify (post_all (shown frs)) >>
     match all_calls frs with
     | _ :: _ =>
         root_after (CbHandleToolCalls (map encode_tool_call (all_calls frs))
                                       (all_deltas frs))
     | [] =>
         (if String.eqb (all_deltas frs) "" then ret tt
          else append_message (assistant_message (all_deltas frs))) >>
         root_after CbFinishStreaming
     end) st.
Proof.
  intros H. destruct st. unfold stream_response. run_m.
  rewrite (stream_response_loop_terminated _ _ _ H). run_m.
  destruct (all_calls frs) as [|tc tcs]; cbn; [|reflexivity].
  destruct (all_deltas frs); reflexivity.
Qed.

End Loop.

Lemma ends_with_weaken (p q : fragment -> bool) (frs : list fragment) :
  (forall f, p f = true -> q f = true) ->
  ends_with p frs = true -> ends_with q frs = true.
Proof.
  intros Hpq. induction frs as [|f rest IH]; [discriminate |].
  destruct rest as [|g rest'].
  - apply Hpq.
  - cbn [ends_with]. rewrite !andb_true_iff. intros [Hf H]. auto.
Qed.

Lemma ends_with_done_terminated (frs : list fragment) :
  ends_with_done frs = true ->
  ends_with (fun f => is_done f || is_error f) frs = true.
Proof.
  apply ends_with_weaken. intros f ->. reflexivity.
Qed.

Lemma ends_with_error_terminated (frs : list fragment) :
  ends_with_error frs = true ->
  ends_with (fun f => is_done f || is_error f) frs = true.
Proof.
  apply ends_with_weaken. intros f ->. apply orb_true_r.
Qed.

(* ===================================================================== *)
(** ** Properties of the orchestration loop                              *)
(* ===================================================================== *)

(** *** A completed stream without tool calls *)

(** C1, as stated, fails: a stream that ends with [done=true], carries
    no tool call and whose content deltas are all empty appends no
    assistant message at all. *)
Lemma stream_response_empty_text_appends_nothing :
  let frs := [Chunk (Some (MessagePart (Some "") None)) true] in
  let st' := exec (stream_response (RT := Machine.runtime) (stream_of frs))
                  example_session in
  ends_with_done frs = true /\ no_tool_calls frs = true /\
  messages st' = messages example_session /\
  messages st' <> messages example_session ++ [assistant_message (all_deltas frs)].
Proof. vm_compute. repeat split; congruence. Qed.

(** C1, amended: for a stream that ends with [done=true] and carries no
    tool call, [stream_response] appends exactly one assistant message,
    whose content is the concatenation of the content deltas in arrival
    order, when that concatenation is not empty, and appends nothing
    when it is empty. *)
Theorem stream_response_appends_text `{RT : Runtime} (st : app) (frs : list fragment) :
  ends_with_done frs = true ->
  no_tool_calls frs = true ->
  messages (exec (stream_response (stream_of frs)) st)
  = messages st ++ (if String.eqb (all_deltas frs) "" then []
                    else [assistant_message (all_deltas frs)]).
Proof.
  intros Hd Hn. unfold exec.
  rewrite (stream_response_terminated _ _ (ends_with_done_terminated _ Hd)).
  unfold no_tool_calls in Hn. destruct (all_calls frs); [|discriminate].
  destruct st. run_m. destruct (all_deltas frs); cbn.
  - now rewrite app_nil_r.
  - reflexivity.
Qed.

Lemma stream_response_appends_text_witness :
  let frs := [Chunk (Some (MessagePart (Some "4") None)) false;
              Chunk (Some (MessagePart (Some "") None)) true] in
  ends_with_done frs = true /\ no_tool_calls frs = true /\
  messages (exec (stream_response (RT := Machine.runtime) (stream_of frs))
                 example_session)
  = [user_message "What's 2+2?"; assistant_message "4"].
Proof.
  split; [reflexivity |]. split; [reflexivity |].
  apply (stream_response_appends_text (RT := Machine.runtime) example_session
           [Chunk (Some (MessagePart (Some "4") None)) false;
            Chunk (Some (MessagePart (Some "") None)) true]);
    reflexivity.
Defined.

(** *** The transport client *)

Lemma raise_for_status_error (url : string) (status_code : Z) (reason : string) :
  (400 <= status_code < 600)%Z ->
  raise_for_status url status_code reason
  = Raise (Exn HTTPError
             (str_of_Z status_code
              +:+ (if (status_code <? 500)%Z then " Client Error: "
                   else " Server Error: ")
              +:+ reason +:+ " for url: " +:+ url)).
Proof.
  intros H. unfold raise_for_status.
  destruct (status_code <? 500)%Z eqn:E.
  - apply Z.ltb_lt in E.
    replace (400 <=? status_code)%Z with true by (symmetry; apply Z.leb_le; lia).
    reflexivity.
  - apply Z.ltb_ge in E. rewrite andb_false_r.
    replace (500 <=? status_code)%Z with true by (symmetry; apply Z.leb_le; lia).
    replace (status_code <? 600)%Z with true by (symmetry; apply Z.ltb_lt; lia).
    reflexivity.
Qed.

(** The claim C4 as it is written fails on a status that is not 2xx and
    that [raise_for_status] accepts: the body of a 304 response is
    streamed like that of a 200 response, no error fragment is yielded. *)
Lemma chat_stream_not_modified_yields_no_error :
  request_failure (chat_url default_base_url)
    (PostResponse 304 "Not Modified" [] None) = None
  /\ raise_for_status (chat_url default_base_url) 304 "Not Modified" = Return tt
  /\ chat_stream (RT := Machine.runtime) default_base_url
       (PostResponse 304 "Not Modified" [] None)
     = Stream [] None.
Proof. repeat split. Qed.

(** C4, amended: when the HTTP request fails (the connection is
    refused, the request times out, the response has a client or server
    error status, 400 to 599, which are the ones [raise_for_status]
    rejects), the iterator of [chat_stream] yields one fragment, the
    error marker with the text of the failure, and ends; no exception
    leaves it. *)
Theorem chat_stream_failure_is_one_error_fragment `{RT : Runtime}
    (base : string) (r : post_result) (e : exn) :
  request_failure (chat_url base) r = Some e ->
  chat_stream base r
  = Stream [JObj [("error", JBool true);
                  ("message", JStr ("Error communicating with Ollama: "
                                    +:+ exn_msg e))]]
           None.
Proof.
  destruct r as [e0 | status_code reason lines broken]; cbn [request_failure].
  - destruct (is_RequestException (exn_kind e0)) eqn:E; [|discriminate].
    intros [= <-]. unfold chat_stream, on_exception. now rewrite E.
  - destruct ((400 <=? status_code) && (status_code <? 600))%Z eqn:E; [|discriminate].
    intros [= <-]. apply andb_true_iff in E as [E1 E2].
    apply Z.leb_le in E1. apply Z.ltb_lt in E2.
    unfold chat_stream. now rewrite raise_for_status_error by lia.
Qed.

Lemma chat_stream_failure_is_one_error_fragment_witness :
  request_failure (chat_url default_base_url)
    (PostRaises (Exn ConnectionError "Connection refused"))
  = Some (Exn ConnectionError "Connection refused")
  /\ chat_stream (RT := Machine.runtime) default_base_url
       (PostRaises (Exn ConnectionError "Connection refused"))
     = Stream [JObj [("error", JBool true);
                     ("message",
                      JStr "Error communicating with Ollama: Connection refused")]]
              None.
Proof.
  split; [reflexivity |].
  apply (chat_stream_failure_is_one_error_fragment (RT := Machine.runtime)
           default_base_url
           (PostRaises (Exn ConnectionError "Connection refused"))
           (Exn ConnectionError "Connection refused")).
  reflexivity.
Defined.

Section Lines.
Context `{RT : Runtime}.



Lemma decode_lines_harmless (lines : list string) :
  Forall harmless lines -> snd (decode_lines lines) = None.
Proof.
  induction 1 as [|line lines Hl _ IH]; [reflexivity |].
  cbn. destruct (String.eqb line ""); [exact IH |].
  unfold harmless in Hl. destruct (json_loads_line line) as [chunk|e].
  - now destruct (decode_lines lines).
  - now rewrite Hl.
Qed.


(** An exception that ends the loop is the one [json.loads] raised on
    one of the lines. *)
Lemma decode_lines_raised (lines : list string) (e : exn) :
  snd (decode_lines lines) = Some e ->
  exists line, In line lines /\ json_loads_line line = Raise e
               /\ is_JSONDecodeError (exn_kind e) = false.
Proof.
  induction lines as [|l lines IH]; [discriminate |].
  cbn. destruct (String.eqb l "").
  - intros H. destruct (IH H) as (line & Hin & Hl). exists line. auto.
  - destruct (json_loads_line l) as [c|e0] eqn:El.
    + destruct (decode_lines lines) as [ys r]. cbn. intros H.
      destruct (IH H) as (line & Hin & Hl). exists line. auto.
    + destruct (is_JSONDecodeError (exn_kind e0)) eqn:Ek.
      * intros H. destruct (IH H) as (line & Hin & Hl). exists line. auto.
      * cbn. intros [= <-]. exists l. auto.
Qed.

Lemma harmless_app_skip (before after : list string) (bad : string) (e : exn) :
  json_loads_line bad = Raise e -> is_JSONDecodeError (exn_kind e) = true ->
  Forall harmless (before ++ after) -> Forall harmless (before ++ bad :: after).
Proof.
  intros Hb He H. apply Forall_app in H as [H1 H2]. apply Forall_app.
  split; [exact H1 |]. constructor; [|exact H2].
  unfold harmless. now rewrite Hb.
Qed.

End Lines.




(** *** The tool registry *)

Lemma execute_tool_spec `{RT : Runtime}
    (tools : registry) (name : string) (arguments : json) :
  execute_tool tools (JStr name) arguments
  = Return (execute_spec tools name arguments).
Proof.
  unfold execute_tool, execute_spec, py_not_in_tools.
  destruct (dict_find name tools) as [info|]; [|reflexivity].
  now destruct (call_with_kwargs (tool_function info) arguments).
Qed.

(** C6: for every tool name and every arguments value, [execute_tool]
    returns a string and does not raise.  When the name is not
    registered the string is the structured error payload naming the
    tool; when the registered handler raises, the exception is caught
    and the string is the structured error payload with its text. *)
Theorem execute_tool_never_raises `{RT : Runtime}
    (tools : registry) (name : string) (arguments : json) :
  execute_tool tools (JStr name) arguments
  = Return (execute_spec tools name arguments)
  /\ (dict_find name tools = None ->
      execute_tool tools (JStr name) arguments
      = Return (json_dumps
                  (JObj [("error", JStr ("Tool '" +:+ name +:+ "' not found"))])))
  /\ (forall info e,
        dict_find name tools = Some info ->
        call_with_kwargs (tool_function info) arguments = Raise e ->
        execute_tool tools (JStr name) arguments
        = Return (json_dumps
                    (JObj [("error",
                            JStr ("Error executing tool: " +:+ exn_msg e))]))).
Proof.
  unfold execute_tool, execute_spec, py_not_in_tools.
  destruct (dict_find name tools) as [info|] eqn:E.
  - split; [|split].
    + now destruct (call_with_kwargs (tool_function info) arguments).
    + discriminate.
    + intros info' e [= <-] ->. reflexivity.
  - split; [|split]; [reflexivity | reflexivity | discriminate].
Qed.

Lemma execute_tool_never_raises_witness :
  let tools := ToolRegistry_init (RT := Machine.runtime) in
  dict_find "no_such_tool" tools = None
  /\ execute_tool (RT := Machine.runtime) tools (JStr "no_such_tool") (JObj [])
     = Return (Machine.dumps
                 (JObj [("error", JStr "Tool 'no_such_tool' not found")]))
  /\ call_with_kwargs (get_top_cryptocurrencies (RT := Machine.runtime))
       (JObj [("limit", JNum 5)])
     = Raise (Exn TypeError
                "get_top_cryptocurrencies() got an unexpected keyword argument 'limit'")
  /\ execute_tool (RT := Machine.runtime) tools
       (JStr "get_top_cryptocurrencies") (JObj [("limit", JNum 5)])
     = Return (Machine.dumps
                 (JObj [("error",
                         JStr ("Error executing tool: " +:+
                               "get_top_cryptocurrencies() got an unexpected keyword argument 'limit'"))])).
Proof.
  cbv zeta. split; [reflexivity |]. split.
  - apply (execute_tool_never_raises (RT := Machine.runtime)
             (ToolRegistry_init (RT := Machine.runtime))
             "no_such_tool" (JObj [])).
    reflexivity.
  - split; [reflexivity |].
    destruct (execute_tool_never_raises (RT := Machine.runtime)
                (ToolRegistry_init (RT := Machine.runtime))
                "get_top_cryptocurrencies"
                (JObj [("limit", JNum 5)])) as (_ & _ & H).
    exact (H _ _ eq_refl eq_refl).
Defined.

(** *** Rejected submissions *)

Lemma strip_newline : strip (String "010" "") = "".
Proof. reflexivity. Qed.

(** C8: when the input is empty, or no model is selected, or a stream
    is in flight, [send_message] returns without appending to the
    history, without starting a worker and without any request: the
    history, the started threads, the callback queue and the trace are
    what they were. *)
Theorem send_message_rejects (st : app) :
  input_text st = ""
  \/ (falsy_model (current_model st) = true /\ model_var st = "")
  \/ is_streaming st = true ->
  let st' := exec send_message st in
  messages st' = messages st
  /\ length (messages st') = length (messages st)
  /\ threads st' = threads st
  /\ after_queue st' = after_queue st
  /\ trace st' = trace st
  /\ is_streaming st' = is_streaming st.
Proof.
  intros H. destruct st as [msgs cm busy reg dir url mv text disp dlg q ths fs clk tr].
  cbn [input_text current_model model_var is_streaming] in H.
  unfold send_message. run_m.
  destruct (String.eqb (strip (text +:+ String "010" "")) "") eqn:Eblank;
    [cbn; tauto |].
  destruct H as [-> | [[Hcm ->] | ->]].
  - rewrite str_app_nil_l, strip_newline in Eblank. discriminate.
  - rewrite Hcm. cbn. tauto.
  - destruct (falsy_model cm) eqn:Ecm; cbn.
    + destruct (String.eqb mv ""); cbn; tauto.
    + rewrite Ecm. cbn. tauto.
Qed.

Lemma send_message_rejects_witness :
  let st := set_input_text "hello" example_session in
  is_streaming st = true
  /\ messages (exec send_message st) = messages st
  /\ trace (exec send_message st) = trace st.
Proof.
  split; [reflexivity |].
  destruct (send_message_rejects
              (set_input_text "hello" example_session))
    as (Hm & _ & _ & _ & Ht & _).
  - right. right. reflexivity.
  - split; [exact Hm | exact Ht].
Defined.

(** *** The JSON printer and parser of the machine *)

Section Codec.
Import Machine.







(** Numbers *)















Lemma skip_ws_idem (s : string) : skip_ws (skip_ws s) = skip_ws s.
Proof.
  induction s as [|c s IH]; [reflexivity |].
  cbn. destruct (is_json_space c) eqn:E; [exact IH |]. cbn. now rewrite E.
Qed.

Lemma parse_value_skip (fuel : nat) (s : string) :
  parse_value fuel s = parse_value fuel (skip_ws s).
Proof. destruct fuel; [reflexivity |]. cbn. now rewrite skip_ws_idem. Qed.

Lemma parse_members_skip (fuel : nat) (s : string) :
  parse_members fuel s = parse_members fuel (skip_ws s).
Proof. destruct fuel; [reflexivity |]. cbn. now rewrite skip_ws_idem. Qed.

Lemma parse_items_skip (fuel : nat) (s : string) :
  parse_items fuel s = parse_items fuel (skip_ws s).
Proof.
  destruct fuel; [reflexivity |]. cbn [parse_items].
  now rewrite parse_value_skip.
Qed.


Lemma prefix_app (p s : string) : String.prefix p (p +:+ s) = true.
Proof.
  induction p as [|c p IH]; [now destruct s |].
  rewrite str_app_cons. cbn.
  destruct (ascii_dec c c); [exact IH | congruence].
Qed.


























End Codec.

(** *** Persistence *)





(** *** Tool dispatch *)

Lemma add_to_current_message_entry (text tag : string) (st : app) :
  add_to_current_message text tag st
  = (set_chat_display (chat_display st ++ [display_entry text tag]) st, Return tt).
Proof.
  unfold add_to_current_message, display_entry.
  now destruct (is_substring "```" text || String.eqb tag "code").
Qed.

Section Dispatch.
Context `{RT : Runtime}.

(** One pass through the body of the loop of [handle_tool_calls], for
    a request whose fields can be read and whose tool returns. *)
Lemma handle_tool_calls_loop_step tool_call rest st info name arguments result :
  py_get tool_call "function" (JObj []) = Return info ->
  py_get info "name" (JStr "unknown") = Return name ->
  py_get info "arguments" (JObj []) = Return arguments ->
  execute_tool (tool_registry st) name arguments = Return result ->
  handle_tool_calls_loop (tool_call :: rest) st
  = handle_tool_calls_loop rest (answered name arguments result st).
Proof.
  intros Hf Hn Ha He. cbn [handle_tool_calls_loop].
  unfold dispatch_tool. run_m. rewrite Hf, Hn, Ha.
  rewrite add_to_current_message_entry. run_m.
  destruct st; cbn [tool_registry] in He. cbn. rewrite He.
  rewrite add_to_current_message_entry. run_m. f_equal.
  unfold answered, calling_text, result_text. run_m.
  now rewrite <- !app_assoc.
Qed.

Lemma handle_tool_calls_loop_typed tcs st :
  handle_tool_calls_loop (map encode_tool_call tcs) st
  = (answer_all tcs st, Return tt).
Proof.
  revert st. induction tcs as [|tc tcs IH]; intros st; [reflexivity |].
  cbn [map]. rewrite (handle_tool_calls_loop_step _ _ _
                        (JObj [("name", JStr (tc_name tc));
                               ("arguments", JObj (tc_arguments tc))])
                        (JStr (tc_name tc)) (JObj (tc_arguments tc))
                        (result_of (tool_registry st) tc));
    try reflexivity.
  - now rewrite IH.
  - apply execute_tool_spec.
Qed.

(** What the loop leaves behind: one result message and one dispatch
    per call, in the order of the calls; nothing else of the session
    changes but the display. *)
Lemma answer_all_fields tcs st :
  messages (answer_all tcs st)
  = messages st ++ map (fun tc => tool_message (result_of (tool_registry st) tc)) tcs
  /\ trace (answer_all tcs st)
     = trace st ++ flat_map (tool_events (tool_registry st)) tcs
  /\ tool_registry (answer_all tcs st) = tool_registry st
  /\ threads (answer_all tcs st) = threads st
  /\ after_queue (answer_all tcs st) = after_queue st
  /\ is_streaming (answer_all tcs st) = is_streaming st
  /\ current_model (answer_all tcs st) = current_model st.
Proof.
  revert st. induction tcs as [|tc tcs IH]; intros st.
  - cbn. now rewrite !app_nil_r.
  - unfold answer_all in *. cbn [fold_left].
    destruct (IH (answer_call st tc)) as (Hm & Ht & Hr & Hth & Hq & Hs & Hc).
    rewrite Hm, Ht, Hr, Hth, Hq, Hs, Hc.
    destruct st; cbn. rewrite <- !app_assoc. repeat split.
Qed.

Lemma handle_tool_calls_typed tcs text st :
  handle_tool_calls (map encode_tool_call tcs) text st
  = (let st1 := answer_all tcs
                  (exec (append_message
                           (assistant_tool_message text (map encode_tool_call tcs)))
                        st) in
     set_threads (threads st1 ++ [ThStreamFinalResponse]) st1,
     Return tt).
Proof.
  unfold handle_tool_calls. run_m.
  rewrite handle_tool_calls_loop_typed. reflexivity.
Qed.

(** Display callbacks change the display only. *)
Lemma drain_display cbs st :
  forallb is_display cbs = true ->
  fold_left (fun st cb => tk_call cb st) cbs st = show_all cbs st.
Proof.
  revert st. induction cbs as [|cb cbs IH]; intros st H.
  - destruct st. unfold show_all. cbn. now rewrite app_nil_r.
  - cbn in H. apply andb_true_iff in H as [Hcb H].
    cbn [fold_left]. rewrite (IH _ H).
    destruct cb as [|text tag| |]; try discriminate.
    + destruct st. unfold tk_call, show_all. cbn. now rewrite <- app_assoc.
    + unfold tk_call. cbn [run_callback].
      rewrite add_to_current_message_entry.
      destruct st. unfold show_all. cbn. now rewrite <- app_assoc.
Qed.

Lemma shown_is_display frs : forallb is_display (shown frs) = true.
Proof.
  unfold shown. induction frs as [|f frs IH]; [reflexivity |].
  cbn. rewrite forallb_app, IH, andb_true_r.
  destruct f as [m d|t]; [|reflexivity].
  cbn. now destruct (String.eqb _ "").
Qed.

(** [finish_streaming] returns the session to the ready state and
    touches neither the history nor the trace. *)
Lemma tk_call_finish st :
  let st' := tk_call CbFinishStreaming st in
  is_streaming st' = false
  /\ messages st' = messages st
  /\ trace st' = trace st
  /\ threads st' = threads st
  /\ after_queue st' = after_queue st.
Proof.
  destruct st as [msgs cm busy reg dir url mv text disp dlg q ths fs clk tr].
  unfold tk_call. cbn [run_callback]. unfold finish_streaming, auto_save. run_m.
  destruct (0 <? length msgs)%nat; [|cbn; tauto].
  destruct cm as [model|]; [|cbn; tauto].
  destruct (save_chat dir clk msgs model fs) as [[fs' path]|e]; cbn; tauto.
Qed.

End Dispatch.




(** *** The resumption stream *)

Section Quiet.
Context `{RT : Runtime}.

Lemma queues_display_ret {A} (a : A) : queues_display (ret a).
Proof. intros st. exists []. now rewrite post_all_nil. Qed.

Lemma queues_display_raise {A} (e : exn) : queues_display (raise (A := A) e).
Proof. intros st. exists []. now rewrite post_all_nil. Qed.

Lemma queues_display_lift {A} (o : outcome A) : queues_display (lift o).
Proof. intros st. exists []. now rewrite post_all_nil. Qed.

Lemma queues_display_root_after (cb : callback) :
  is_display cb = true -> queues_display (root_after cb).
Proof. intros H st. exists [cb]. cbn. now rewrite H. Qed.

Lemma queues_display_bind {A B} (m : M A) (k : A -> M B) :
  queues_display m -> (forall a, queues_display (k a)) ->
  queues_display (bind m k).
Proof.
  intros Hm Hk st. unfold bind.
  destruct (Hm st) as (cbs & E & Hd).
  destruct (m st) as [st' [a|e]]; cbn in E; subst st'.
  - destruct (Hk a (post_all cbs st)) as (cbs' & E' & Hd').
    exists (cbs ++ cbs'). rewrite E', post_all_app, forallb_app, Hd, Hd'. auto.
  - exists cbs. auto.
Qed.

Ltac quiet :=
  repeat first
    [ apply queues_display_ret
    | apply queues_display_raise
    | apply queues_display_lift
    | apply queues_display_root_after; reflexivity
    | apply queues_display_bind; [|intros ?]
    | match goal with
      | |- queues_display (if ?b then _ else _) => destruct b
      | |- queues_display (match ?x with _ => _ end) => destruct x
      end ].

(** Whatever the chunks are, the loop of [stream_final_response] only
    queues display updates. *)
Lemma stream_final_loop_quiet chunks fail text :
  queues_display (stream_final_loop chunks fail text).
Proof.
  revert text. induction chunks as [|chunk rest IH]; intros text;
    cbn [stream_final_loop]; quiet; apply IH.
Qed.

(** The same holds for the loop of [stream_response]. *)
Lemma stream_response_loop_quiet chunks fail text calls :
  queues_display (stream_response_loop chunks fail text calls).
Proof.
  revert text calls. induction chunks as [|chunk rest IH]; intros text calls;
    cbn [stream_response_loop]; unfold take_content, take_tool_calls;
    quiet; apply IH.
Qed.

(** [stream_final_response] on any stream: one request, at most one
    assistant message appended, display updates queued, and
    [finish_streaming] queued last. *)
Lemma stream_final_response_spec (s : stream) (st : app) :
  exists cbs new,
    forallb is_display cbs = true
    /\ (new = [] \/ exists text, new = [assistant_message text])
    /\ exec (stream_final_response s) st
       = post_all (cbs ++ [CbFinishStreaming])
           (set_messages (messages st ++ new)
              (set_trace (trace st ++ EvRequest (request_payload st)
                                       :: map EvAppend new) st)).
Proof.
  unfold exec, stream_final_response. run_m.
  match goal with
  | |- context [stream_final_loop ?c ?f ?t ?S] =>
      destruct (stream_final_loop_quiet c f t S) as (cbs & E & Hd);
      destruct (stream_final_loop c f t S) as [S' [text|e]]
  end; cbn [fst] in E; subst S'.
  - destruct (truthy (JStr text)) eqn:Et.
    + exists (CbAddToCurrentMessage (String "010" "") "assistant" :: cbs),
             [assistant_message text].
      split; [cbn; exact Hd |]. split; [right; eauto |].
      destruct st. run_m. cbn. rewrite <- !app_assoc. reflexivity.
    + exists (CbAddToCurrentMessage (String "010" "") "assistant" :: cbs), [].
      split; [cbn; exact Hd |]. split; [left; reflexivity |].
      destruct st. run_m. cbn. rewrite <- !app_assoc, !app_nil_r. reflexivity.
  - exists ((CbAddToCurrentMessage (String "010" "") "assistant" :: cbs)
            ++ [CbAddToCurrentMessage (error_annotation (exn_msg e)) "error"]), [].
    split; [cbn; rewrite forallb_app, Hd; reflexivity |].
    split; [left; reflexivity |].
    destruct st. run_m. cbn. rewrite <- !app_assoc, !app_nil_r. reflexivity.
Qed.

End Quiet.

Section Turn.
Context `{RT : Runtime}.

(** The main loop on a queue of display updates that ends with
    [finish_streaming]. *)
Lemma mainloop_finish (cbs : list callback) (st : app) :
  after_queue st = cbs ++ [CbFinishStreaming] ->
  forallb is_display cbs = true ->
  is_streaming (mainloop st) = false
  /\ messages (mainloop st) = messages st
  /\ trace (mainloop st) = trace st
  /\ threads (mainloop st) = threads st
  /\ after_queue (mainloop st) = [].
Proof.
  intros Hq Hd. unfold mainloop. rewrite Hq, fold_left_app, (drain_display _ _ Hd).
  cbn [fold_left].
  destruct (tk_call_finish (show_all cbs (set_after_queue [] st)))
    as (H1 & H2 & H3 & H4 & H5).
  rewrite H1, H2, H3, H4, H5. now destruct st.
Qed.

Lemma mainloop_empty (st : app) : after_queue st = [] -> mainloop st = st.
Proof. intros H. unfold mainloop. rewrite H. destruct st. cbn in *. now subst. Qed.

Lemma run_no_thread (net : list post_result) (st : app) :
  threads (mainloop st) = [] -> run net st = mainloop st.
Proof. intros H. destruct net; cbn; [reflexivity | now rewrite H]. Qed.

Lemma no_request_among_appends (new : list json) :
  requests_in (map EvAppend new) = [] /\ dispatches_in (map EvAppend new) = [].
Proof. induction new as [|m new [IH1 IH2]]; split; auto. Qed.

End Turn.

(** C7: once the turn has reached the resumption stream, the turn ends
    when that stream ends, whatever it carried (tool calls included)
    and however it ended: the session is idle again, the one request of
    the resumption is the only new request, no tool is dispatched, at
    most one assistant message is appended, and the answers the server
    would give to further requests are never asked for. *)
Theorem resumption_stream_ends_turn `{RT : Runtime}
    (st : app) (r : post_result) (net : list post_result) :
  after_queue st = [] ->
  threads st = [ThStreamFinalResponse] ->
  let st' := run (r :: net) st in
  idle st'
  /\ st' = run [r] st
  /\ requests_in (trace st')
     = requests_in (trace st) ++ [EvRequest (request_payload st)]
  /\ dispatches_in (trace st') = dispatches_in (trace st)
  /\ exists new,
       (new = [] \/ exists text, new = [assistant_message text])
       /\ messages st' = messages st ++ new.
Proof.
  intros Hq Hth.
  assert (forall net', 
            let st' := run (r :: net') st in
            idle st'
            /\ st' = mainloop (run_thread ThStreamFinalResponse r (set_threads [] st))
            /\ requests_in (trace st')
               = requests_in (trace st) ++ [EvRequest (request_payload st)]
            /\ dispatches_in (trace st') = dispatches_in (trace st)
            /\ exists new,
                 (new = [] \/ exists text, new = [assistant_message text])
                 /\ messages st' = messages st ++ new) as H.
  { intros net'. cbn [run]. rewrite (mainloop_empty _ Hq), Hth.
    unfold run_thread.
    destruct (stream_final_response_spec (chat_stream (base_url (set_threads [] st)) r)
                (set_threads [] st)) as (cbs & new & Hd & Hnew & E).
    rewrite E.
    match goal with
    | |- context [run net' ?X] =>
        destruct (mainloop_finish cbs X) as (H1 & H2 & H3 & H4 & H5);
        [ destruct st; cbn in *; subst; reflexivity | exact Hd | ];
        rewrite (run_no_thread net' X) by (rewrite H4; now destruct st)
    end.
    cbv zeta. unfold idle. rewrite H1, H2, H3, H4, H5.
    destruct (no_request_among_appends new) as [Hr Hn].
    split; [now destruct st |]. split; [reflexivity |].
    unfold requests_in, dispatches_in in *.
    destruct st; cbn. rewrite !List.filter_app. cbn. rewrite Hr, Hn, !app_nil_r.
    repeat split. exists new. auto. }
  intros st'. subst st'.
  destruct (H net) as (Hi & E & Hr & Hn & Hm).
  destruct (H []) as (_ & E' & _).
  repeat split; try assumption; try apply Hi. congruence.
Qed.

Lemma resumption_stream_ends_turn_witness :
  let again := Chunk (Some (MessagePart (Some "Bitcoin leads.")
                              (Some [ToolCall "get_top_cryptocurrencies" []])))
                     true in
  let r := PostResponse 200 "OK" [Machine.dumps (encode again)] None in
  let st := set_threads [ThStreamFinalResponse] example_session in
  after_queue st = []
  /\ threads st = [ThStreamFinalResponse]
  /\ idle (run (RT := Machine.runtime) [r; r; r] st)
  /\ dispatches_in (trace (run (RT := Machine.runtime) [r; r; r] st)) = [].
Proof.
  cbv zeta. split; [reflexivity |]. split; [reflexivity |].
  destruct (resumption_stream_ends_turn (RT := Machine.runtime)
              (set_threads [ThStreamFinalResponse] example_session)
              (PostResponse 200 "OK"
                 [Machine.dumps
                    (encode (Chunk (Some (MessagePart (Some "Bitcoin leads.")
                                            (Some [ToolCall "get_top_cryptocurrencies" []])))
                                   true))] None)
              [PostResponse 200 "OK"
                 [Machine.dumps
                    (encode (Chunk (Some (MessagePart (Some "Bitcoin leads.")
                                            (Some [ToolCall "get_top_cryptocurrencies" []])))
                                   true))] None;
               PostResponse 200 "OK"
                 [Machine.dumps
                    (encode (Chunk (Some (MessagePart (Some "Bitcoin leads.")
                                            (Some [ToolCall "get_top_cryptocurrencies" []])))
                                   true))] None]
              eq_refl eq_refl) as (Hi & _ & _ & Hn & _).
  split; [exact Hi | exact Hn].
Defined.

(** *** The tool round *)

Section Round.
Context `{RT : Runtime}.

(** A stream that carried tool calls, read to its terminal fragment,
    and then the main loop: the assistant message with the calls is
    appended, every call is dispatched and answered in order, and the
    worker of the resumption stream is started. *)
Lemma tool_round (frs : list fragment) (st : app) :
  ends_with (fun f => is_done f || is_error f) frs = true ->
  no_tool_calls frs = false ->
  after_queue st = [] ->
  let tools := tool_registry st in
  let calls := map encode_tool_call (all_calls frs) in
  let st1 := mainloop (exec (stream_response (stream_of frs)) st) in
  messages st1
  = messages st ++ assistant_tool_message (all_deltas frs) calls
                   :: map (fun tc => tool_message (result_of tools tc)) (all_calls frs)
  /\ trace st1
     = trace st ++ EvRequest (request_payload st)
                   :: EvAppend (assistant_tool_message (all_deltas frs) calls)
                   :: flat_map (tool_events tools) (all_calls frs)
  /\ threads st1 = threads st ++ [ThStreamFinalResponse]
  /\ after_queue st1 = []
  /\ is_streaming st1 = is_streaming st
  /\ tool_registry st1 = tool_registry st
  /\ current_model st1 = current_model st.
Proof.
  intros Ht Hc Hq. cbv zeta. unfold exec.
  rewrite (stream_response_terminated _ _ Ht).
  unfold no_tool_calls in Hc.
  destruct (all_calls frs) as [|tc tcs] eqn:Ecalls; [discriminate |].
  destruct st as [msgs cm busy reg dir url mv text disp dlg q ths fs clk tr].
  cbn [after_queue] in Hq. subst q.
  run_m. unfold mainloop. cbn [after_queue set_after_queue].
  change ((([] ++ [CbStartAssistantMessage]) ++ shown frs)
          ++ [CbHandleToolCalls (map encode_tool_call (tc :: tcs)) (all_deltas frs)])
    with ((CbStartAssistantMessage :: shown frs)
          ++ [CbHandleToolCalls (map encode_tool_call (tc :: tcs)) (all_deltas frs)]).
  rewrite fold_left_app.
  rewrite (drain_display (CbStartAssistantMessage :: shown frs))
    by (cbn; apply shown_is_display).
  cbn [fold_left]. unfold tk_call. cbn [run_callback].
  rewrite handle_tool_calls_typed. cbv zeta.
  match goal with
  | |- context [answer_all ?l ?S] =>
      destruct (answer_all_fields l S) as (Hm & Htr & Hr & Hth & Hqq & Hs & Hcm)
  end.
  cbn [messages trace threads after_queue is_streaming tool_registry
       current_model set_threads].
  rewrite Hm, Htr, Hr, Hth, Hqq, Hs, Hcm.
  unfold exec, show_all. run_m. cbn [fst].
  rewrite <- !app_assoc. repeat split.
Qed.

End Round.

(** C2: when the stream carried at least one tool call before
    [done=true], the calls are dispatched in the order they were
    received, one after the other: the trace after the main loop has
    run is the initial request, the append of the assistant message
    carrying the calls, and then for each call in turn its dispatch
    followed by the append of its one tool-result message.  The
    follow-up request is not in that trace: its worker has only been
    started, and the request it issues carries the extended history. *)
Theorem tool_calls_dispatched_in_order `{RT : Runtime}
    (st : app) (frs : list fragment) :
  ends_with_done frs = true ->
  no_tool_calls frs = false ->
  after_queue st = [] ->
  let tools := tool_registry st in
  let calls := all_calls frs in
  let reply := assistant_tool_message (all_deltas frs) (map encode_tool_call calls) in
  let st1 := mainloop (exec (stream_response (stream_of frs)) st) in
  trace st1
  = trace st ++ EvRequest (request_payload st) :: EvAppend reply
                :: flat_map (fun tc =>
                               [EvDispatch (JStr (tc_name tc)) (JObj (tc_arguments tc));
                                EvAppend (tool_message (result_of tools tc))])
                            calls
  /\ messages st1
     = messages st ++ reply :: map (fun tc => tool_message (result_of tools tc)) calls
  /\ threads st1 = threads st ++ [ThStreamFinalResponse]
  /\ forall s, exists later,
       trace (exec (stream_final_response s) st1)
       = trace st1 ++ EvRequest (chat_payload (model_value (current_model st))
                                              (messages st1)
                                              (get_tool_definitions tools))
                      :: later.
Proof.
  intros Hd Hc Hq. cbv zeta.
  destruct (tool_round frs st (ends_with_done_terminated _ Hd) Hc Hq)
    as (Hm & Ht & Hth & _ & _ & Hr & Hcm).
  split; [exact Ht |]. split; [exact Hm |]. split; [exact Hth |].
  intros s.
  destruct (stream_final_response_spec s
              (mainloop (exec (stream_response (stream_of frs)) st)))
    as (cbs & new & _ & _ & E).
  exists (map EvAppend new). rewrite E.
  unfold request_payload at 1. rewrite Hr, Hcm.
  match goal with |- context [post_all ?c (set_messages ?m (set_trace ?t ?S))] =>
    generalize S; intros S0 end.
  now destruct S0.
Qed.

Lemma tool_calls_dispatched_in_order_witness :
  let frs := [Chunk (Some (MessagePart (Some "")
                             (Some [ToolCall "get_top_cryptocurrencies" []])))
                    true] in
  let st1 := mainloop (RT := Machine.runtime)
               (exec (stream_response (RT := Machine.runtime) (stream_of frs))
                     example_session) in
  ends_with_done frs = true
  /\ no_tool_calls frs = false
  /\ after_queue example_session = []
  /\ dispatches_in (trace st1)
     = [EvDispatch (JStr "get_top_cryptocurrencies") (JObj [])]
  /\ length (messages st1) = 3%nat
  /\ threads st1 = [ThStreamFinalResponse].
Proof.
  cbv zeta. split; [reflexivity |]. split; [reflexivity |]. split; [reflexivity |].
  destruct (tool_calls_dispatched_in_order (RT := Machine.runtime) example_session
              [Chunk (Some (MessagePart (Some "")
                              (Some [ToolCall "get_top_cryptocurrencies" []])))
                     true]
              eq_refl eq_refl eq_refl) as (Ht & Hm & Hth & _).
  rewrite Ht, Hm, Hth. repeat split.
Defined.

(** *** An error fragment *)

(** An error fragment with no tool call before it ends the turn: the
    annotation is shown, the session is idle, nothing is dispatched. *)
Lemma error_without_tool_calls_ends_turn `{RT : Runtime}
    (st : app) (frs : list fragment) :
  ends_with_error frs = true ->
  no_tool_calls frs = true ->
  after_queue st = [] ->
  let st1 := mainloop (exec (stream_response (stream_of frs)) st) in
  is_streaming st1 = false
  /\ threads st1 = threads st
  /\ after_queue st1 = []
  /\ dispatches_in (trace st1) = dispatches_in (trace st).
Proof.
  intros He Hc Hq. cbv zeta. unfold exec.
  rewrite (stream_response_terminated _ _ (ends_with_error_terminated _ He)).
  unfold no_tool_calls in Hc. destruct (all_calls frs); [|discriminate].
  destruct st as [msgs cm busy reg dir url mv text disp dlg q ths fs clk tr].
  cbn [after_queue] in Hq. subst q.
  match goal with
  | |- context [mainloop (fst ?p)] => remember (fst p) as X eqn:EX
  end.
  destruct (mainloop_finish (CbStartAssistantMessage :: shown frs) X)
    as (H1 & H2 & H3 & H4 & H5).
  - subst X. destruct (String.eqb (all_deltas frs) ""); run_m;
      cbn; rewrite <- ?app_assoc; reflexivity.
  - cbn. apply shown_is_display.
  - rewrite H1, H3, H4, H5. subst X.
    destruct (String.eqb (all_deltas frs) ""); run_m;
      unfold dispatches_in; rewrite !List.filter_app; cbn;
      now rewrite ?app_nil_r.
Qed.

(** C3 fails on the code when tool calls were received before the
    error fragment: after the annotation the accumulated calls are
    still handed to [handle_tool_calls], every one of them is
    dispatched, the worker of a second stream is started, and the
    session stays busy. *)
Theorem error_after_tool_calls_still_dispatches `{RT : Runtime}
    (st : app) (frs : list fragment) :
  ends_with_error frs = true ->
  no_tool_calls frs = false ->
  after_queue st = [] ->
  let st1 := mainloop (exec (stream_response (stream_of frs)) st) in
  dispatches_in (trace st1)
  = dispatches_in (trace st)
    ++ map (fun tc => EvDispatch (JStr (tc_name tc)) (JObj (tc_arguments tc)))
           (all_calls frs)
  /\ threads st1 = threads st ++ [ThStreamFinalResponse]
  /\ is_streaming st1 = is_streaming st.
Proof.
  intros He Hc Hq. cbv zeta.
  destruct (tool_round frs st (ends_with_error_terminated _ He) Hc Hq)
    as (_ & Ht & Hth & _ & Hs & _).
  split; [|split; assumption].
  rewrite Ht. unfold dispatches_in. rewrite List.filter_app.
  cbn [List.filter is_dispatch]. f_equal. clear Ht.
  induction (all_calls frs) as [|tc tcs IH]; [reflexivity |].
  cbn [flat_map tool_events Datatypes.app List.filter is_dispatch map].
  f_equal. exact IH.
Qed.

Lemma error_after_tool_calls_still_dispatches_witness :
  let frs := [Chunk (Some (MessagePart None
                             (Some [ToolCall "get_top_cryptocurrencies" []])))
                    false;
              ErrorFragment "Error communicating with Ollama: Connection broken"] in
  let st1 := mainloop (RT := Machine.runtime)
               (exec (stream_response (RT := Machine.runtime) (stream_of frs))
                     example_session) in
  ends_with_error frs = true
  /\ no_tool_calls frs = false
  /\ after_queue example_session = []
  /\ dispatches_in (trace st1)
     = [EvDispatch (JStr "get_top_cryptocurrencies") (JObj [])]
  /\ threads st1 = [ThStreamFinalResponse]
  /\ is_streaming st1 = true.
Proof.
  cbv zeta. split; [reflexivity |]. split; [reflexivity |]. split; [reflexivity |].
  apply (error_after_tool_calls_still_dispatches (RT := Machine.runtime)
           example_session
           [Chunk (Some (MessagePart None
                           (Some [ToolCall "get_top_cryptocurrencies" []])))
                  false;
            ErrorFragment "Error communicating with Ollama: Connection broken"]);
    reflexivity.
Defined.

(* ===================================================================== *)
(** ** The example scenarios of the specification, run end to end        *)
(* ===================================================================== *)

(** The user sends "What's 2+2?" with model llama2; the server answers
    with the delta "4", an empty keep-alive line, and the completion
    marker.  The history ends as user message and assistant message,
    nothing is dispatched, the session is idle and the chat is saved. *)
Example scenario_plain_answer :
  let st := set_input_text "What's 2+2?"
              (refresh_models ["llama2"]
                 (OllamaChatApp_init (RT := Machine.runtime)
                    "/home/user" "20240101_120000")) in
  let body := [Machine.dumps (encode (Chunk (Some (MessagePart (Some "4") None)) false));
               "";
               Machine.dumps (encode (Chunk (Some (MessagePart (Some "") None)) true))] in
  let st' := turn (RT := Machine.runtime) [PostResponse 200 "OK" body None] st in
  messages st' = [user_message "What's 2+2?"; assistant_message "4"]
  /\ dispatches_in (trace st') = []
  /\ length (requests_in (trace st')) = 1%nat
  /\ is_streaming st' = false /\ threads st' = [] /\ after_queue st' = []
  /\ load_chat (RT := Machine.runtime)
       "/home/user/.ollama_chat/history/chat_llama2_20240101_120000.json"
       (files st')
     = Return (chat_record (messages st') "llama2" "20240101_120000").
Proof. vm_compute. repeat split. Qed.

(** The model asks for [get_top_cryptocurrencies] with no arguments;
    the result of the registry is appended as the tool message, and a
    second request carries the extended history. *)
Example scenario_tool_call :
  let st := set_input_text "Top coins?"
              (refresh_models ["llama2"]
                 (OllamaChatApp_init (RT := Machine.runtime)
                    "/home/user" "20240101_120000")) in
  let ask := Chunk (Some (MessagePart (Some "")
                            (Some [ToolCall "get_top_cryptocurrencies" []])))
                   true in
  let answer := Chunk (Some (MessagePart (Some "Bitcoin leads.") None)) true in
  let net := [PostResponse 200 "OK" [Machine.dumps (encode ask)] None;
              PostResponse 200 "OK" [Machine.dumps (encode answer)] None] in
  let st' := turn (RT := Machine.runtime) net st in
  let result := Machine.dumps_at 0 (market_report (Runtime := Machine.runtime)) in
  messages st'
  = [user_message "Top coins?";
     assistant_tool_message "" [encode_tool_call (ToolCall "get_top_cryptocurrencies" [])];
     tool_message result;
     assistant_message "Bitcoin leads."]
  /\ dispatches_in (trace st')
     = [EvDispatch (JStr "get_top_cryptocurrencies") (JObj [])]
  /\ length (requests_in (trace st')) = 2%nat
  /\ is_streaming st' = false /\ threads st' = [] /\ after_queue st' = [].
Proof. vm_compute. repeat split. Qed.

(** A refused connection: the error annotation is shown, nothing is
    appended after the user message, and the session is idle again. *)
Example scenario_connection_refused :
  let st := set_input_text "hello"
              (refresh_models ["llama2"]
                 (OllamaChatApp_init (RT := Machine.runtime)
                    "/home/user" "20240101_120000")) in
  let st' := turn (RT := Machine.runtime)
               [PostRaises (Exn ConnectionError "Connection refused")] st in
  messages st' = [user_message "hello"]
  /\ In (error_annotation "Error communicating with Ollama: Connection refused", "error")
        (chat_display st')
  /\ is_streaming st' = false /\ threads st' = [] /\ after_queue st' = [].
Proof. vm_compute. repeat split. right. right. right. now left. Qed.

(* ===================================================================== *)
(** ** Further properties: the transport client                          *)
(* ===================================================================== *)

(** X1: when the body of a response breaks off with one of the
    [requests] exceptions, after lines on each of which [json.loads]
    returned or raised [json.JSONDecodeError], the chunks read so far
    are yielded as for a healthy response, then the error chunk comes as
    one more and last chunk, and no exception leaves the generator. *)
Theorem chat_stream_broken_body `{RT : Runtime}
    (base reason : string) (status_code : Z) (lines : list string) (e : exn) :
  raise_for_status (chat_url base) status_code reason = Return tt ->
  is_RequestException (exn_kind e) = true ->
  Forall harmless lines ->
  chat_stream base (PostResponse status_code reason lines (Some e))
  = Stream (chunks (chat_stream base (PostResponse status_code reason lines None))
            ++ [error_chunk e])
           None.
Proof.
  intros Hok He Hh. unfold chat_stream. rewrite Hok.
  pose proof (decode_lines_harmless _ Hh) as Hn.
  destruct (decode_lines lines) as [ys r]. cbn in Hn. subst r.
  unfold on_exception. now rewrite He.
Qed.

Lemma chat_stream_broken_body_witness :
  let first := Chunk (Some (MessagePart (Some "4") None)) false in
  let e := Exn ChunkedEncodingError "Connection broken" in
  raise_for_status (chat_url default_base_url) 200 "OK" = Return tt
  /\ is_RequestException (exn_kind e) = true
  /\ Forall (harmless (RT := Machine.runtime)) [Machine.dumps (encode first)]
  /\ chat_stream (RT := Machine.runtime) default_base_url
       (PostResponse 200 "OK" [Machine.dumps (encode first)] (Some e))
     = Stream [encode first; error_chunk e] None.
Proof.
  cbv zeta.
  assert (H : Forall (harmless (RT := Machine.runtime))
                [Machine.dumps
                   (encode (Chunk (Some (MessagePart (Some "4") None)) false))]).
  { repeat constructor. }
  split; [reflexivity |]. split; [reflexivity |]. split; [exact H |].
  rewrite (chat_stream_broken_body (RT := Machine.runtime) default_base_url "OK" 200
             [Machine.dumps (encode (Chunk (Some (MessagePart (Some "4") None)) false))]
             (Exn ChunkedEncodingError "Connection broken") eq_refl eq_refl H).
  reflexivity.
Defined.

(** X2: an exception leaves the generator of [chat_stream] only when
    it is not one of the [requests] exceptions, and then it is the one
    that [requests.post] raised, or the reading of the body, or
    [json.loads] on one of the lines, and in that last case it is not
    [json.JSONDecodeError]. *)
Theorem chat_stream_escaping_exception `{RT : Runtime}
    (base : string) (r : post_result) (e : exn) :
  failure (chat_stream base r) = Some e ->
  is_RequestException (exn_kind e) = false
  /\ (r = PostRaises e
      \/ (exists status_code reason lines,
            r = PostResponse status_code reason lines (Some e))
      \/ (exists status_code reason lines broken line,
            r = PostResponse status_code reason lines broken
            /\ In line lines
            /\ json_loads_line line = Raise e
            /\ is_JSONDecodeError (exn_kind e) = false)).
Proof.
  unfold chat_stream, on_exception.
  destruct r as [e0 | status_code reason lines broken].
  - destruct (is_RequestException (exn_kind e0)) eqn:E; cbn; [discriminate |].
    intros [= <-]. auto.
  - destruct (raise_for_status _ _ _) as [[]|e0] eqn:Hs.
    + pose proof (decode_lines_raised lines) as Hr.
      destruct (decode_lines lines) as [ys [e1|]]; cbn in Hr.
      * destruct (is_RequestException (exn_kind e1)) eqn:E; cbn; [discriminate |].
        intros [= <-]. split; [exact E |]. right. right.
        destruct (Hr e1 eq_refl) as (line & Hin & Hl & Hk).
        exists status_code, reason, lines, broken, line. auto.
      * destruct broken as [e0|]; cbn; [|discriminate].
        destruct (is_RequestException (exn_kind e0)) eqn:E; cbn; [discriminate |].
        intros [= <-]. split; [exact E |]. right. left. eauto.
    + unfold raise_for_status in Hs.
      destruct ((400 <=? status_code) && (status_code <? 500))%Z;
        [injection Hs as <-; cbn; discriminate |].
      destruct ((500 <=? status_code) && (status_code <? 600))%Z;
        [injection Hs as <-; cbn; discriminate | discriminate].
Qed.

Lemma chat_stream_escaping_exception_witness :
  let e := Exn TypeError "Object of type set is not JSON serializable" in
  failure (chat_stream (RT := Machine.runtime) default_base_url (PostRaises e))
  = Some e
  /\ is_RequestException (exn_kind e) = false.
Proof.
  cbv zeta. split; [reflexivity |].
  apply (chat_stream_escaping_exception (RT := Machine.runtime) default_base_url
           (PostRaises (Exn TypeError "Object of type set is not JSON serializable"))).
  reflexivity.
Defined.

(** X3: a healthy response whose lines all decode is yielded line for
    line, in order, as the decoded values, with nothing added. *)
Theorem chat_stream_healthy `{RT : Runtime}
    (base reason : string) (status_code : Z)
    (lines : list string) (values : list json) :
  raise_for_status (chat_url base) status_code reason = Return tt ->
  Forall2 (fun line value => line <> "" /\ json_loads_line line = Return value)
          lines values ->
  chat_stream base (PostResponse status_code reason lines None)
  = Stream values None.
Proof.
  intros Hok H. unfold chat_stream. rewrite Hok.
  assert (E : decode_lines lines = (values, None)).
  { induction H as [|line value lines values [Hne Hl] _ IH]; [reflexivity |].
    cbn. apply String.eqb_neq in Hne. now rewrite Hne, Hl, IH. }
  now rewrite E.
Qed.

Lemma chat_stream_healthy_witness :
  let first := Chunk (Some (MessagePart (Some "4") None)) false in
  let last := Chunk (Some (MessagePart (Some "") None)) true in
  chat_stream (RT := Machine.runtime) default_base_url
    (PostResponse 200 "OK"
       [Machine.dumps (encode first); Machine.dumps (encode last)] None)
  = Stream [encode first; encode last] None.
Proof.
  cbv zeta.
  apply (chat_stream_healthy (RT := Machine.runtime) default_base_url "OK" 200);
    [reflexivity |].
  repeat constructor; discriminate.
Defined.

Lemma raise_for_status_ok (url : string) (status_code : Z) (reason : string) :
  ((400 <=? status_code) && (status_code <? 600))%Z = false ->
  raise_for_status url status_code reason = Return tt.
Proof.
  intros H. unfold raise_for_status.
  destruct ((400 <=? status_code) && (status_code <? 500))%Z eqn:E1.
  - apply andb_true_iff in E1 as [E1 E2]. apply Z.ltb_lt in E2.
    rewrite E1 in H. cbn in H. apply Z.ltb_ge in H. lia.
  - destruct ((500 <=? status_code) && (status_code <? 600))%Z eqn:E2;
      [|reflexivity].
    apply andb_true_iff in E2 as [E2 E3]. apply Z.leb_le in E2.
    rewrite E3, andb_true_r in H. apply Z.leb_gt in H. lia.
Qed.

(** X4: [list_models] gives the [models] entry of a good answer as it
    is, and the empty list in every other case: the request raised,
    the status is an error status, the body does not decode, the
    decoded body is not an object, or it has no [models] entry. *)
Theorem list_models_cases (base : string) (r : http_result) :
  match r with
  | HttpResponse status_code reason (Return (JObj kvs)) =>
      if ((400 <=? status_code) && (status_code <? 600))%Z
      then list_models base r = JArr []
      else list_models base r = default (JArr []) (dict_lookup "models" kvs)
  | _ => list_models base r = JArr []
  end.
Proof.
  destruct r as [e | status_code reason [data|e]]; [reflexivity | |].
  - destruct ((400 <=? status_code) && (status_code <? 600))%Z eqn:E.
    + apply andb_true_iff in E as [E1 E2].
      apply Z.leb_le in E1. apply Z.ltb_lt in E2.
      assert (list_models base (HttpResponse status_code reason (Return data))
              = JArr []) as H.
      { unfold list_models. now rewrite raise_for_status_error by lia. }
      destruct data; exact H.
    + unfold list_models. rewrite (raise_for_status_ok _ _ _ E).
      destruct data as [| | | | |kvs]; reflexivity.
  - unfold list_models. now destruct (raise_for_status _ _ _).
Qed.

(** X5: [chat] and [chat_stream] report a failed request with the same
    record: for a refused connection or a timeout, and for an error
    status, what [chat] returns is the one chunk [chat_stream] yields. *)
Theorem chat_reports_failure_like_chat_stream `{RT : Runtime}
    (base : string) (r : post_result) (e : exn) (h : http_result) :
  request_failure (chat_url base) r = Some e ->
  match r with
  | PostRaises e0 => h = HttpRaises e0
  | PostResponse status_code reason _ _ =>
      exists body, h = HttpResponse status_code reason body
  end ->
  chat base h = Return (error_chunk e)
  /\ chat_stream base r = Stream [error_chunk e] None.
Proof.
  destruct r as [e0 | status_code reason lines broken]; cbn [request_failure].
  - destruct (is_RequestException (exn_kind e0)) eqn:E; [|discriminate].
    intros [= <-] ->. unfold chat, chat_failed, chat_stream, on_exception.
    now rewrite E.
  - destruct ((400 <=? status_code) && (status_code <? 600))%Z eqn:E; [|discriminate].
    intros [= <-] [body ->]. apply andb_true_iff in E as [E1 E2].
    apply Z.leb_le in E1. apply Z.ltb_lt in E2.
    unfold chat, chat_stream.
    rewrite raise_for_status_error by lia. split; reflexivity.
Qed.

Lemma chat_reports_failure_like_chat_stream_witness :
  let r := PostResponse 503 "Service Unavailable" [] None in
  let h := HttpResponse 503 "Service Unavailable" (Return JNull) in
  exists e,
    request_failure (chat_url default_base_url) r = Some e
    /\ chat default_base_url h = Return (error_chunk e)
    /\ chat_stream (RT := Machine.runtime) default_base_url r
       = Stream [error_chunk e] None.
Proof.
  cbv zeta. eexists. split; [reflexivity |].
  apply (chat_reports_failure_like_chat_stream (RT := Machine.runtime)
           default_base_url
           (PostResponse 503 "Service Unavailable" [] None)).
  - reflexivity.
  - eexists. reflexivity.
Defined.

(* ===================================================================== *)
(** ** Further properties: the tool registry                             *)
(* ===================================================================== *)

Lemma dict_find_set_eq {V : Type} (k : string) (v : V) (l : list (string * V)) :
  dict_find k (dict_set k v l) = Some v.
Proof.
  induction l as [|[k' v'] l IH]; cbn.
  - now rewrite String.eqb_refl.
  - destruct (String.eqb k k') eqn:E; cbn.
    + now rewrite String.eqb_refl.
    + now rewrite E.
Qed.

Lemma dict_find_set_ne {V : Type} (k k' : string) (v : V) (l : list (string * V)) :
  k <> k' -> dict_find k' (dict_set k v l) = dict_find k' l.
Proof.
  intros Hne. induction l as [|[k0 v0] l IH]; cbn.
  - apply not_eq_sym in Hne. apply String.eqb_neq in Hne. now rewrite Hne.
  - destruct (String.eqb k k0) eqn:E; cbn.
    + apply String.eqb_eq in E. subst k0.
      apply not_eq_sym in Hne. apply String.eqb_neq in Hne. now rewrite Hne.
    + now rewrite IH.
Qed.

Lemma dict_set_set {V : Type} (k : string) (v1 v2 : V) (l : list (string * V)) :
  dict_set k v2 (dict_set k v1 l) = dict_set k v2 l.
Proof.
  induction l as [|[k' v'] l IH]; cbn.
  - now rewrite String.eqb_refl.
  - destruct (String.eqb k k') eqn:E; cbn.
    + now rewrite String.eqb_refl.
    + now rewrite E, IH.
Qed.

Lemma dict_set_keys {V : Type} (k : string) (v : V) (l : list (string * V)) :
  map fst (dict_set k v l)
  = if existsb (String.eqb k) (map fst l) then map fst l else map fst l ++ [k].
Proof.
  induction l as [|[k' v'] l IH]; cbn; [reflexivity |].
  destruct (String.eqb k k') eqn:E; cbn.
  - apply String.eqb_eq in E. now subst.
  - rewrite IH. now destruct (existsb (String.eqb k) (map fst l)).
Qed.

(** X6: a tool that has been registered is the one [execute_tool]
    runs under that name: the arguments are handed to its function and
    the result comes back serialized, or as the error payload when the
    function raises. *)
Theorem register_then_execute `{RT : Runtime}
    (tools : registry) (name description : string) (function : handler)
    (parameters : json) (kwargs : list (string * json)) :
  execute_tool (register_tool name description function parameters tools)
               (JStr name) (JObj kwargs)
  = Return (match function kwargs with
            | Return result => json_dumps_indent result
            | Raise e =>
                json_dumps (JObj [("error",
                                   JStr ("Error executing tool: " +:+ exn_msg e))])
            end).
Proof.
  unfold execute_tool, py_not_in_tools, register_tool.
  rewrite dict_find_set_eq. cbn. now destruct (function kwargs).
Qed.

(** X7: registering a tool changes nothing for the other names: what
    [execute_tool] does under another name is what it did before. *)
Theorem register_tool_leaves_others `{RT : Runtime}
    (tools : registry) (name description : string) (function : handler)
    (parameters : json) (other : string) (arguments : json) :
  name <> other ->
  execute_tool (register_tool name description function parameters tools)
               (JStr other) arguments
  = execute_tool tools (JStr other) arguments.
Proof.
  intros Hne. unfold execute_tool, py_not_in_tools, register_tool.
  now rewrite (dict_find_set_ne _ _ _ _ Hne).
Qed.

Lemma register_tool_leaves_others_witness :
  execute_tool (RT := Machine.runtime)
    (register_tool "echo" "Echo" (fun kwargs => Return (JObj kwargs)) (JObj [])
                   (ToolRegistry_init (RT := Machine.runtime)))
    (JStr "get_top_cryptocurrencies") (JObj [])
  = execute_tool (RT := Machine.runtime) (ToolRegistry_init (RT := Machine.runtime))
      (JStr "get_top_cryptocurrencies") (JObj []).
Proof.
  apply (register_tool_leaves_others (RT := Machine.runtime)).
  discriminate.
Defined.

(** X8: registering a name a second time silently replaces the first
    registration: the registry is the one the second call alone would
    have given, the tool keeps its place, and the list of definitions
    does not grow. *)
Theorem register_tool_twice_replaces
    (tools : registry) (name d1 d2 : string) (f1 f2 : handler) (p1 p2 : json) :
  register_tool name d2 f2 p2 (register_tool name d1 f1 p1 tools)
  = register_tool name d2 f2 p2 tools
  /\ map fst (register_tool name d2 f2 p2 (register_tool name d1 f1 p1 tools))
     = map fst (register_tool name d1 f1 p1 tools)
  /\ length (get_tool_definitions
               (register_tool name d2 f2 p2 (register_tool name d1 f1 p1 tools)))
     = length (get_tool_definitions (register_tool name d1 f1 p1 tools)).
Proof.
  unfold register_tool. rewrite dict_set_set.
  assert (map fst (dict_set name (ToolInfo name d2 f2 p2) tools)
          = map fst (dict_set name (ToolInfo name d1 f1 p1) tools)) as Hk.
  { now rewrite !dict_set_keys. }
  split; [reflexivity |]. split; [exact Hk |].
  unfold get_tool_definitions. rewrite !length_map.
  rewrite <- (length_map fst), Hk. now rewrite length_map.
Qed.

(** X9: [execute_tool] raises in exactly one case, a name that cannot
    be hashed (a list or a dictionary), and then with a [TypeError]
    that no [try] of the method covers; for every other name it
    returns a string. *)
Theorem execute_tool_raises_on_unhashable_name `{RT : Runtime}
    (tools : registry) (name arguments : json) :
  match name with
  | JArr _ | JObj _ =>
      exists e, execute_tool tools name arguments = Raise e
                /\ exn_kind e = TypeError
  | _ => exists text, execute_tool tools name arguments = Return text
  end.
Proof.
  destruct name as [| b | n | s | xs | kvs]; unfold execute_tool; cbn;
    try (eexists; reflexivity); try (eexists; split; reflexivity).
  destruct (dict_find s tools) as [info|]; [|eexists; reflexivity].
  destruct (call_with_kwargs (tool_function info) arguments); eexists; reflexivity.
Qed.

Lemma existsb_eqb_In (k : string) (l : list string) :
  existsb (String.eqb k) l = true <-> In k l.
Proof.
  rewrite existsb_exists. split.
  - intros (x & Hx & E). apply String.eqb_eq in E. now subst.
  - intros H. exists k. split; [exact H | apply String.eqb_refl].
Qed.

Lemma NoDup_map_JStr (l : list string) : NoDup l -> NoDup (map JStr l).
Proof.
  induction 1 as [|x l Hx _ IH]; cbn; constructor; [|exact IH].
  intros Hin. apply Hx. apply list_elem_of_In in Hin. apply list_elem_of_In.
  apply in_map_iff in Hin as (y & [= ->] & Hy). exact Hy.
Qed.

(** X10: [register_tool] keeps the registry well formed: names stay
    unique and every record sits under its own name, so the list of
    definitions sent to the server announces every registered name
    once, in registration order. *)
Theorem register_tool_keeps_names_unique
    (tools : registry) (name description : string) (function : handler)
    (parameters : json) :
  registry_ok tools ->
  let tools' := register_tool name description function parameters tools in
  registry_ok tools'
  /\ omap definition_name (get_tool_definitions tools')
     = map (fun entry => JStr (fst entry)) tools'
  /\ NoDup (omap definition_name (get_tool_definitions tools')).
Proof.
  intros [Hnd Hall]. cbv zeta.
  assert (registry_ok (register_tool name description function parameters tools))
    as Hok.
  { unfold register_tool. split.
    - rewrite dict_set_keys.
      destruct (existsb (String.eqb name) (map fst tools)) eqn:E; [exact Hnd |].
      apply NoDup_app. split; [exact Hnd |]. split.
      + intros x Hx Hk. apply list_elem_of_singleton in Hk. subst x.
        apply list_elem_of_In, existsb_eqb_In in Hx. congruence.
      + apply NoDup_singleton.
    - clear Hnd. induction tools as [|[k info] tools IH]; cbn.
      + repeat constructor.
      + inversion Hall as [|? ? Hk Hrest]; subst.
        destruct (String.eqb name k) eqn:E.
        * apply String.eqb_eq in E. subst k. constructor; [reflexivity | exact Hrest].
        * constructor; [exact Hk | auto]. }
  split; [exact Hok |].
  assert (forall ts, Forall (fun entry => tool_name (snd entry) = fst entry) ts ->
            omap definition_name (get_tool_definitions ts)
            = map (fun entry => JStr (fst entry)) ts) as Hnames.
  { intros ts H. induction H as [|[k info] ts Hk _ IH]; [reflexivity |].
    unfold get_tool_definitions in *. cbn. cbn in Hk. rewrite Hk.
    f_equal. exact IH. }
  destruct Hok as [Hnd' Hall'].
  rewrite (Hnames _ Hall'). split; [reflexivity |].
  rewrite <- (map_map fst JStr). apply NoDup_map_JStr. exact Hnd'.
Qed.

Lemma register_tool_keeps_names_unique_witness :
  let tools := ToolRegistry_init (RT := Machine.runtime) in
  let tools' := register_tool "echo" "Echo" (fun kwargs => Return (JObj kwargs))
                              (JObj []) tools in
  registry_ok tools
  /\ omap definition_name (get_tool_definitions tools')
     = [JStr "get_top_cryptocurrencies"; JStr "echo"].
Proof.
  cbv zeta.
  assert (registry_ok (ToolRegistry_init (RT := Machine.runtime))) as H.
  { split.
    - cbn. apply NoDup_singleton.
    - repeat constructor. }
  split; [exact H |].
  destruct (register_tool_keeps_names_unique
              (ToolRegistry_init (RT := Machine.runtime))
              "echo" "Echo" (fun kwargs => Return (JObj kwargs)) (JObj []) H)
    as (_ & E & _).
  exact E.
Defined.

(* ===================================================================== *)
(** ** Further properties: submissions, auto-save, New Chat              *)
(* ===================================================================== *)

(** X11: a submission that passes the three checks (text that is not
    blank, a model selected or selectable from the combo box, no
    stream in flight) appends exactly one user message holding the
    stripped text, empties the input, marks the session busy and
    starts exactly one worker; no request has been issued yet. *)
Theorem send_message_accepts (st : app) :
  strip (input_text st +:+ String "010" "") <> "" ->
  falsy_model (current_model st) = false \/ model_var st <> "" ->
  is_streaming st = false ->
  let text := strip (input_text st +:+ String "010" "") in
  let st' := exec send_message st in
  messages st' = messages st ++ [user_message text]
  /\ trace st' = trace st ++ [EvAppend (user_message text)]
  /\ threads st' = threads st ++ [ThStreamResponse]
  /\ after_queue st' = after_queue st
  /\ is_streaming st' = true
  /\ input_text st' = ""
  /\ current_model st'
     = (if falsy_model (current_model st) then Some (model_var st)
        else current_model st).
Proof.
  destruct st as [msgs cm busy reg dir url mv text disp dlg q ths fs clk tr].
  cbn [input_text current_model model_var is_streaming].
  intros Htext Hmodel ->. apply String.eqb_neq in Htext.
  unfold exec, send_message, add_message_to_display. run_m. rewrite Htext.
  destruct (falsy_model cm) eqn:Ecm; cbn.
  - destruct Hmodel as [|Hmv]; [discriminate |].
    apply String.eqb_neq in Hmv. rewrite Hmv. cbn. repeat split.
  - rewrite Ecm. cbn. repeat split.
Qed.

Lemma send_message_accepts_witness :
  let st := set_input_text "  What's 2+2? "
              (refresh_models ["llama2"]
                 (OllamaChatApp_init (RT := Machine.runtime)
                    "/home/user" "20240101_120000")) in
  messages (exec send_message st) = [user_message "What's 2+2?"]
  /\ threads (exec send_message st) = [ThStreamResponse].
Proof.
  cbv zeta.
  destruct (send_message_accepts
              (set_input_text "  What's 2+2? "
                 (refresh_models ["llama2"]
                    (OllamaChatApp_init (RT := Machine.runtime)
                       "/home/user" "20240101_120000"))))
    as (Hm & _ & Hth & _).
  - discriminate.
  - left. reflexivity.
  - reflexivity.
  - split; [exact Hm | exact Hth].
Defined.

(** X12: [finish_streaming] never raises and always clears the busy
    flag, whatever happens to the auto-save: the history and the trace
    are untouched, and the files are either untouched (the history is
    empty, no model is set, or the file cannot be created) or hold one
    more snapshot, the record of the whole history under the path
    built from the model and the clock. *)
Theorem finish_streaming_absorbs_save_failure `{RT : Runtime} (st : app) :
  let st' := fst (finish_streaming st) in
  snd (finish_streaming st) = Return tt
  /\ is_streaming st' = false
  /\ messages st' = messages st
  /\ trace st' = trace st
  /\ (files st' = files st
      \/ exists model,
           current_model st = Some model
           /\ messages st <> []
           /\ files st'
              = <[path_join (history_dir st) (chat_filename model (clock st))
                  := json_dumps_indent
                       (chat_record (messages st) model (clock st))]> (files st)).
Proof.
  destruct st as [msgs cm busy reg dir url mv text disp dlg q ths fs clk tr].
  unfold finish_streaming, auto_save. run_m.
  destruct msgs as [|m msgs]; [cbn; auto 10 |].
  cbn [length Nat.ltb Nat.leb].
  destruct cm as [model|]; [|cbn; auto 10].
  unfold save_chat. destruct (open_w_ok _); cbn; [|auto 10].
  repeat split. right. exists model. repeat split. discriminate.
Qed.




(** X14: [new_chat], once the user has confirmed, empties the history
    and the display in every case, also when saving the old history
    failed: then nothing has been written, an error dialog is shown,
    and the old history is gone. *)
Theorem new_chat_clears_even_if_save_fails `{RT : Runtime} (st : app) :
  messages st <> [] ->
  let st' := exec (new_chat true) st in
  messages st' = []
  /\ chat_display st' = []
  /\ ((forall model, current_model st = Some model ->
         open_w_ok (path_join (history_dir st) (chat_filename model (clock st)))
         = false) ->
      files st' = files st
      /\ exists reason,
           dialogs st'
           = dialogs st
             ++ [("New Chat", "Start a new chat? Current chat will be saved.");
                 ("Error", "Failed to save chat: " +:+ reason)]).
Proof.
  destruct st as [msgs cm busy reg dir url mv text disp dlg q ths fs clk tr].
  cbn [messages current_model history_dir clock files dialogs].
  intros Hne. destruct msgs as [|m msgs]; [contradiction |].
  unfold exec, new_chat, auto_save. run_m. cbn [truthy length Nat.ltb Nat.leb].
  destruct cm as [model|].
  - unfold save_chat. destruct (open_w_ok _) eqn:Hopen; cbn;
      (split; [reflexivity |]); (split; [reflexivity |]); intros Hfail.
    + specialize (Hfail model eq_refl). congruence.
    + split; [reflexivity |]. eexists. rewrite <- app_assoc. reflexivity.
  - cbn. split; [reflexivity |]. split; [reflexivity |]. intros _.
    split; [reflexivity |]. eexists. rewrite <- app_assoc. reflexivity.
Qed.

Lemma new_chat_clears_even_if_save_fails_witness :
  let st := set_current_model None example_session in
  messages st <> []
  /\ messages (exec (new_chat (RT := Machine.runtime) true) st) = []
  /\ files (exec (new_chat (RT := Machine.runtime) true) st) = files st.
Proof.
  cbv zeta. split; [discriminate |].
  destruct (new_chat_clears_even_if_save_fails (RT := Machine.runtime)
              (set_current_model None example_session))
    as (Hm & _ & Hf).
  - discriminate.
  - split; [exact Hm |]. apply Hf. intros model H. discriminate H.
Defined.

(** X15: [new_chat] on an empty history asks nothing and changes
    nothing; with a history and the answer No it only shows its
    question: history, display and files stay as they are. *)
Theorem new_chat_declined_changes_nothing `{RT : Runtime} (st : app) (answer : bool) :
  messages st = [] \/ answer = false ->
  let st' := exec (new_chat answer) st in
  messages st' = messages st
  /\ chat_display st' = chat_display st
  /\ files st' = files st
  /\ (messages st = [] -> st' = st).
Proof.
  destruct st as [msgs cm busy reg dir url mv text disp dlg q ths fs clk tr].
  cbn [messages]. intros H. unfold exec, new_chat. run_m.
  destruct msgs as [|m msgs]; cbn [truthy].
  - cbn. repeat split.
  - destruct H as [H | ->]; [discriminate |]. cbn. repeat split.
    intros H'. discriminate H'.
Qed.

Lemma new_chat_declined_changes_nothing_witness :
  messages (exec (new_chat (RT := Machine.runtime) false) example_session)
  = [user_message "What's 2+2?"].
Proof.
  destruct (new_chat_declined_changes_nothing (RT := Machine.runtime)
              example_session false) as (H & _).
  - right. reflexivity.
  - exact H.
Defined.

(* ===================================================================== *)
(** ** Further properties: the workers on arbitrary streams              *)
(* ===================================================================== *)

Section Workers.
Context `{RT : Runtime}.

(** [stream_response] on any stream, as a change of the state. *)
Lemma stream_response_spec (s : stream) (st : app) :
  exists cbs last new,
    forallb is_display cbs = true
    /\ ((last = CbFinishStreaming
         /\ (new = [] \/ exists text, text <> "" /\ new = [assistant_message text]))
        \/ (exists tcs text,
              tcs <> [] /\ last = CbHandleToolCalls tcs text /\ new = []))
    /\ exec (stream_response s) st
       = post_all (cbs ++ [last])
           (set_messages (messages st ++ new)
              (set_trace (trace st ++ EvRequest (request_payload st)
                                       :: map EvAppend new) st)).
Proof.
  unfold exec, stream_response. run_m.
  match goal with
  | |- context [stream_response_loop ?c ?f ?t ?l ?S] =>
      destruct (stream_response_loop_quiet c f t l S) as (cbs & E & Hd);
      destruct (stream_response_loop c f t l S) as [S' [[text calls]|e]]
  end; cbn [fst] in E; subst S'.
  - destruct calls as [|tc tcs]; cbn [truthy].
    + destruct text as [|c text]; cbn [truthy String.eqb negb].
      * exists (CbStartAssistantMessage :: cbs), CbFinishStreaming, [].
        split; [cbn; exact Hd |]. split; [left; auto |].
        destruct st. run_m. cbn. rewrite <- !app_assoc, !app_nil_r. reflexivity.
      * exists (CbStartAssistantMessage :: cbs), CbFinishStreaming,
               [assistant_message (String c text)].
        split; [cbn; exact Hd |].
        split; [left; split; [reflexivity |]; right; eexists; split;
                [|reflexivity]; discriminate |].
        destruct st. run_m. cbn. rewrite <- !app_assoc. reflexivity.
    + exists (CbStartAssistantMessage :: cbs),
             (CbHandleToolCalls (tc :: tcs) text), [].
      split; [cbn; exact Hd |].
      split; [right; exists (tc :: tcs), text; repeat split; discriminate |].
      destruct st. run_m. cbn. rewrite <- !app_assoc, !app_nil_r. reflexivity.
  - exists ((CbStartAssistantMessage :: cbs)
            ++ [CbAddToCurrentMessage (error_annotation (exn_msg e)) "error"]),
           CbFinishStreaming, [].
    split; [cbn; rewrite forallb_app, Hd; reflexivity |].
    split; [left; auto |].
    destruct st. run_m. cbn. rewrite <- !app_assoc, !app_nil_r. reflexivity.
Qed.

End Workers.

(** X16: whatever the stream is (any JSON values as chunks, any
    exception ending it), [stream_response] issues exactly one request,
    dispatches nothing itself, and always reports back: after its
    display updates it queues exactly one last callback, either
    [finish_streaming] or [handle_tool_calls] with a list of calls
    that is not empty.  It appends at most one message, an assistant
    message with text that is not empty, and none when it hands over
    to [handle_tool_calls]. *)
Theorem stream_response_always_reports `{RT : Runtime} (s : stream) (st : app) :
  let st' := exec (stream_response s) st in
  (exists cbs last,
     after_queue st' = after_queue st ++ cbs ++ [last]
     /\ forallb is_display cbs = true
     /\ (last = CbFinishStreaming
         \/ exists tcs text,
              tcs <> [] /\ last = CbHandleToolCalls tcs text
              /\ messages st' = messages st))
  /\ requests_in (trace st')
     = requests_in (trace st) ++ [EvRequest (request_payload st)]
  /\ dispatches_in (trace st') = dispatches_in (trace st)
  /\ threads st' = threads st
  /\ is_streaming st' = is_streaming st
  /\ (messages st' = messages st
      \/ exists text, text <> "" /\ messages st' = messages st ++ [assistant_message text]).
Proof.
  cbv zeta.
  destruct (stream_response_spec s st) as (cbs & last & new & Hd & Hlast & E).
  rewrite E. clear E.
  destruct (no_request_among_appends new) as [Hr Hn].
  destruct st as [msgs cm busy reg dir url mv text disp dlg q ths fs clk tr].
  unfold post_all, requests_in, dispatches_in in *. cbn.
  rewrite !List.filter_app. cbn. rewrite Hr, Hn, !app_nil_r.
  split.
  - exists cbs, last. split; [reflexivity |]. split; [exact Hd |].
    destruct Hlast as [[-> _] | (tcs & t & Hne & -> & ->)]; [left; reflexivity |].
    right. exists tcs, t. rewrite app_nil_r. auto.
  - repeat split.
    destruct Hlast as [[_ [-> | (t & Hne & ->)]] | (tcs & t & _ & _ & ->)].
    + left. now rewrite app_nil_r.
    + right. eauto.
    + left. now rewrite app_nil_r.
Qed.

(* ===================================================================== *)
(** ** Further properties: tool calls of any shape                       *)
(* ===================================================================== *)

Lemma grows_refl (st : app) : grows st st.
Proof. exists []. now rewrite app_nil_r. Qed.

Lemma grows_trans (a b c : app) : grows a b -> grows b c -> grows a c.
Proof.
  intros [n1 H1] [n2 H2]. exists (n1 ++ n2). now rewrite H2, H1, app_assoc.
Qed.

Lemma calm_refl (st : app) : calm st st.
Proof. unfold calm. repeat split. apply grows_refl. Qed.

Lemma calm_trans (a b c : app) : calm a b -> calm b c -> calm a c.
Proof.
  unfold calm.
  intros (H1 & H0 & H2 & H3 & H4 & H5 & H6 & H7 & H8)
         (G1 & G0 & G2 & G3 & G4 & G5 & G6 & G7 & G8).
  repeat split; try congruence. eapply grows_trans; eauto.
Qed.

Lemma steps_ret (R : app -> app -> Prop) {A} (a : A) :
  (forall st, R st st) -> steps R (ret a).
Proof. intros H st. apply H. Qed.

Lemma steps_raise (R : app -> app -> Prop) {A} (e : exn) :
  (forall st, R st st) -> steps R (raise (A := A) e).
Proof. intros H st. apply H. Qed.

Lemma steps_lift (R : app -> app -> Prop) {A} (o : outcome A) :
  (forall st, R st st) -> steps R (lift o).
Proof. intros H st. apply H. Qed.

Lemma steps_gets (R : app -> app -> Prop) {A} (f : app -> A) :
  (forall st, R st st) -> steps R (gets f).
Proof. intros H st. apply H. Qed.

Lemma steps_bind (R : app -> app -> Prop) {A B} (m : M A) (k : A -> M B) :
  (forall a b c, R a b -> R b c -> R a c) ->
  steps R m -> (forall a, steps R (k a)) -> steps R (bind m k).
Proof.
  intros Htrans Hm Hk st. unfold bind. specialize (Hm st).
  destruct (m st) as [st' [a|e]]; cbn in *; [|exact Hm].
  eapply Htrans; [exact Hm | apply Hk].
Qed.

Section Calm.
Context `{RT : Runtime}.

Lemma calm_add_to_current_message (text tag : string) :
  steps calm (add_to_current_message text tag).
Proof.
  intros st. rewrite add_to_current_message_entry. destruct st.
  unfold calm. cbn. repeat split. exists []. cbn. now rewrite app_nil_r.
Qed.

Lemma calm_append_message (m : json) : steps calm (append_message m).
Proof.
  intros st. destruct st. unfold calm, requests_in, callback_errors. run_m. cbn.
  rewrite !List.filter_app. cbn. rewrite !app_nil_r.
  repeat split. now exists [m].
Qed.

Lemma calm_dispatch_tool (name arguments : json) :
  steps calm (dispatch_tool name arguments).
Proof.
  intros st. destruct st. unfold calm, requests_in, callback_errors, dispatch_tool.
  run_m. cbn.
  rewrite !List.filter_app. cbn. rewrite !app_nil_r.
  repeat split. exists []. cbn. now rewrite app_nil_r.
Qed.

(** Whatever the list of calls holds, the loop of [handle_tool_calls]
    issues no request, starts no thread and queues nothing. *)
Lemma calm_handle_tool_calls_loop (tcs : list json) :
  steps calm (handle_tool_calls_loop tcs).
Proof.
  induction tcs as [|tc tcs IH]; cbn [handle_tool_calls_loop].
  - apply steps_ret, calm_refl.
  - repeat first
      [ exact IH
      | apply calm_add_to_current_message
      | apply calm_dispatch_tool
      | apply calm_append_message
      | apply steps_lift, calm_refl
      | apply steps_bind; [exact calm_trans | | intros ?] ].
Qed.

(** [handle_tool_calls] on any list of calls: it either returns, and
    then has started the worker of the resumption stream, or raises,
    and then has started nothing. *)
Lemma handle_tool_calls_any (tcs : list json) (text : string) (st : app) :
  let st' := fst (handle_tool_calls tcs text st) in
  requests_in (trace st') = requests_in (trace st)
  /\ callback_errors (trace st') = callback_errors (trace st)
  /\ after_queue st' = after_queue st
  /\ is_streaming st' = is_streaming st
  /\ grows st st'
  /\ match snd (handle_tool_calls tcs text st) with
     | Return _ => threads st' = threads st ++ [ThStreamFinalResponse]
     | Raise _ => threads st' = threads st
     end.
Proof.
  cbv zeta. unfold handle_tool_calls.
  pose proof (calm_append_message (assistant_tool_message text tcs) st) as H1.
  assert (snd (append_message (assistant_tool_message text tcs) st) = Return tt)
    as Ho by (destruct st; reflexivity).
  unfold bind.
  destruct (append_message (assistant_tool_message text tcs) st) as [S1 o1].
  cbn [fst snd] in *. subst o1.
  pose proof (calm_handle_tool_calls_loop tcs S1) as H2.
  destruct (handle_tool_calls_loop tcs S1) as [S2 [[]|e]]; cbn [fst snd] in *;
    pose proof (calm_trans _ _ _ H1 H2)
      as (G1 & G0 & G2 & G3 & G4 & _ & _ & _ & [new Hn]).
  - unfold start_thread, modify. cbn [fst snd].
    destruct S2; cbn in *. repeat split; try congruence. exists new. exact Hn.
  - repeat split; try congruence. exists new. exact Hn.
Qed.

Lemma handle_tool_calls_loop_prefix (tcs : list tool_call_request)
    (more : list json) (st : app) :
  handle_tool_calls_loop (map encode_tool_call tcs ++ more) st
  = handle_tool_calls_loop more (answer_all tcs st).
Proof.
  revert st. induction tcs as [|tc tcs IH]; intros st; [reflexivity |].
  cbn [map Datatypes.app].
  rewrite (handle_tool_calls_loop_step _ _ _
             (JObj [("name", JStr (tc_name tc));
                    ("arguments", JObj (tc_arguments tc))])
             (JStr (tc_name tc)) (JObj (tc_arguments tc))
             (result_of (tool_registry st) tc));
    try reflexivity.
  - now rewrite IH.
  - apply execute_tool_spec.
Qed.

Lemma handle_tool_calls_loop_unreadable (bad : json) (rest : list json) (st : app) :
  unreadable_call bad = true ->
  exists e,
    handle_tool_calls_loop (bad :: rest) st = (st, Raise e)
    /\ exn_kind e = AttributeError.
Proof.
  intros H. cbn [handle_tool_calls_loop]. run_m.
  destruct bad as [| b | n | s | xs | kvs]; cbn; try (eexists; split; reflexivity).
  cbn in H. destruct (dict_lookup "function" kvs) as [v|]; [|discriminate].
  destruct v; try discriminate; cbn; eexists; split; reflexivity.
Qed.

Lemma append_message_returns (m : json) (st : app) :
  append_message m st = (exec (append_message m) st, Return tt).
Proof. now destruct st. Qed.

Lemma handle_tool_calls_unreadable (done : list tool_call_request) (bad : json)
    (rest : list json) (text : string) (st : app) :
  unreadable_call bad = true ->
  exists e,
    exn_kind e = AttributeError
    /\ handle_tool_calls (map encode_tool_call done ++ bad :: rest) text st
       = (answer_all done
            (exec (append_message
                     (assistant_tool_message text
                        (map encode_tool_call done ++ bad :: rest))) st),
          Raise e).
Proof.
  intros Hbad. unfold handle_tool_calls.
  unfold bind at 1. cbv beta. rewrite append_message_returns.
  unfold bind at 1. cbv beta. rewrite handle_tool_calls_loop_prefix.
  match goal with
  | |- context [handle_tool_calls_loop (bad :: rest) ?S] =>
      destruct (handle_tool_calls_loop_unreadable bad rest S Hbad) as (e & E & Hk)
  end.
  rewrite E. exists e. auto.
Qed.

End Calm.

(** X17: a tool-call entry that is not a mapping, or whose [function]
    is present and not a mapping, makes [handle_tool_calls] raise
    [AttributeError] at that entry.  The assistant message and the
    results of the calls before it are already appended, no later call
    is dispatched, and no resumption worker is started; run as a Tk
    callback, the exception is reported and the session stays busy:
    [finish_streaming] is never queued for this turn. *)
Theorem unreadable_tool_call_aborts_the_turn `{RT : Runtime}
    (st : app) (done : list tool_call_request) (bad : json) (rest : list json)
    (text : string) :
  unreadable_call bad = true ->
  let calls := map encode_tool_call done ++ bad :: rest in
  let st' := fst (handle_tool_calls calls text st) in
  (exists e, snd (handle_tool_calls calls text st) = Raise e
             /\ exn_kind e = AttributeError
             /\ trace (tk_call (CbHandleToolCalls calls text) st)
                = trace st' ++ [EvCallbackError e])
  /\ messages st'
     = messages st ++ assistant_tool_message text calls
                      :: map (fun tc => tool_message (result_of (tool_registry st) tc))
                             done
  /\ dispatches_in (trace st')
     = dispatches_in (trace st)
       ++ map (fun tc => EvDispatch (JStr (tc_name tc)) (JObj (tc_arguments tc))) done
  /\ threads st' = threads st
  /\ after_queue st' = after_queue st
  /\ is_streaming st' = is_streaming st.
Proof.
  intros Hbad. cbv zeta. unfold tk_call. cbn [run_callback].
  destruct (handle_tool_calls_unreadable done bad rest text st Hbad)
    as (e & Hk & E).
  rewrite E. cbn [fst snd].
  destruct (answer_all_fields done
              (exec (append_message
                       (assistant_tool_message text
                          (map encode_tool_call done ++ bad :: rest))) st))
    as (Hm & Ht & Hr & Hth & Hq & Hs & _).
  rewrite Hm, Ht, Hth, Hq, Hs.
  split.
  - exists e. split; [reflexivity |]. split; [exact Hk |].
    now destruct (answer_all _ _).
  - destruct st as [msgs cm busy reg dir url mv txt disp dlg q ths fs clk tr].
    cbn. rewrite <- !app_assoc. repeat split.
    unfold dispatches_in. rewrite !List.filter_app. cbn. f_equal.
    clear. induction done as [|tc tcs IH]; [reflexivity |].
    cbn [flat_map tool_events Datatypes.app List.filter is_dispatch map].
    f_equal. exact IH.
Qed.

Lemma unreadable_tool_call_aborts_the_turn_witness :
  let calls := [encode_tool_call (ToolCall "get_top_cryptocurrencies" []);
                JStr "get_top_cryptocurrencies"] in
  unreadable_call (JStr "get_top_cryptocurrencies") = true
  /\ threads (fst (handle_tool_calls (RT := Machine.runtime) calls ""
                     example_session))
     = threads example_session
  /\ is_streaming (fst (handle_tool_calls (RT := Machine.runtime) calls ""
                          example_session))
     = is_streaming example_session.
Proof.
  cbv zeta. split; [reflexivity |].
  destruct (unreadable_tool_call_aborts_the_turn (RT := Machine.runtime)
              example_session [ToolCall "get_top_cryptocurrencies" []]
              (JStr "get_top_cryptocurrencies") [] "" eq_refl)
    as (_ & _ & _ & Hth & _ & Hs).
  split; [exact Hth | exact Hs].
Defined.

(* ===================================================================== *)
(** ** Further properties: a whole turn against any server               *)
(* ===================================================================== *)

Section AnyTurn.
Context `{RT : Runtime}.

Lemma no_error_among_appends (new : list json) :
  callback_errors (map EvAppend new) = [].
Proof. induction new as [|m new IH]; [reflexivity | exact IH]. Qed.

(** What a worker of the initial stream leaves behind. *)
Lemma worker_step (s : stream) (st : app) :
  let st' := exec (stream_response s) st in
  exists cbs last,
    after_queue st' = after_queue st ++ cbs ++ [last]
    /\ forallb is_display cbs = true
    /\ (last = CbFinishStreaming \/ exists tcs text, last = CbHandleToolCalls tcs text)
    /\ requests_in (trace st')
       = requests_in (trace st) ++ [EvRequest (request_payload st)]
    /\ callback_errors (trace st') = callback_errors (trace st)
    /\ threads st' = threads st
    /\ is_streaming st' = is_streaming st
    /\ grows st st'.
Proof.
  cbv zeta.
  destruct (stream_response_spec s st) as (cbs & last & new & Hd & Hlast & E).
  rewrite E. clear E. exists cbs, last.
  destruct (no_request_among_appends new) as [Hr _].
  pose proof (no_error_among_appends new) as He.
  destruct st as [msgs cm busy reg dir url mv text disp dlg q ths fs clk tr].
  unfold post_all, requests_in, callback_errors, grows in *. cbn.
  rewrite !List.filter_app. cbn. rewrite Hr, He, !app_nil_r.
  repeat split; eauto.
  destruct Hlast as [[-> _] | (tcs & t & _ & -> & _)]; eauto.
Qed.

(** What a worker of the resumption stream leaves behind. *)
Lemma final_worker_step (s : stream) (st : app) :
  let st' := exec (stream_final_response s) st in
  exists cbs,
    after_queue st' = after_queue st ++ cbs ++ [CbFinishStreaming]
    /\ forallb is_display cbs = true
    /\ requests_in (trace st')
       = requests_in (trace st) ++ [EvRequest (request_payload st)]
    /\ callback_errors (trace st') = callback_errors (trace st)
    /\ threads st' = threads st
    /\ is_streaming st' = is_streaming st
    /\ grows st st'.
Proof.
  cbv zeta.
  destruct (stream_final_response_spec s st) as (cbs & new & Hd & _ & E).
  rewrite E. clear E. exists cbs.
  destruct (no_request_among_appends new) as [Hr _].
  pose proof (no_error_among_appends new) as He.
  destruct st as [msgs cm busy reg dir url mv text disp dlg q ths fs clk tr].
  unfold post_all, requests_in, callback_errors, grows in *. cbn.
  rewrite !List.filter_app. cbn. rewrite Hr, He, !app_nil_r.
  repeat split; eauto.
Qed.

(** The main loop on display updates followed by one more callback. *)
Lemma mainloop_last (cbs : list callback) (last : callback) (st : app) :
  after_queue st = cbs ++ [last] ->
  forallb is_display cbs = true ->
  mainloop st = tk_call last (show_all cbs (set_after_queue [] st)).
Proof.
  intros Hq Hd. unfold mainloop.
  now rewrite Hq, fold_left_app, (drain_display _ _ Hd).
Qed.

Lemma shown_fields (cbs : list callback) (st : app) :
  let st' := show_all cbs (set_after_queue [] st) in
  messages st' = messages st
  /\ trace st' = trace st
  /\ threads st' = threads st
  /\ after_queue st' = []
  /\ is_streaming st' = is_streaming st.
Proof. now destruct st. Qed.

(** [handle_tool_calls] run by Tk, on any list of calls. *)
Lemma tk_call_handle (tcs : list json) (text : string) (st : app) :
  let st' := tk_call (CbHandleToolCalls tcs text) st in
  requests_in (trace st') = requests_in (trace st)
  /\ after_queue st' = after_queue st
  /\ is_streaming st' = is_streaming st
  /\ grows st st'
  /\ ((threads st' = threads st ++ [ThStreamFinalResponse]
       /\ callback_errors (trace st') = callback_errors (trace st))
      \/ (threads st' = threads st
          /\ exists e, callback_errors (trace st')
                       = callback_errors (trace st) ++ [EvCallbackError e])).
Proof.
  cbv zeta. unfold tk_call. cbn [run_callback].
  destruct (handle_tool_calls_any tcs text st) as (H1 & H0 & H2 & H3 & H4 & H5).
  destruct (handle_tool_calls tcs text st) as [st' [[]|e]]; cbn [fst snd] in *.
  - repeat split; auto.
  - destruct st'. unfold requests_in, callback_errors, grows in *. cbn in *.
    rewrite !List.filter_app. cbn. rewrite H1, H0, app_nil_r.
    repeat split; auto. right. split; [exact H5 |]. eauto.
Qed.

(** From the moment the worker of the resumption stream has been
    started, whatever the server answers. *)
Lemma final_worker_run (r : post_result) (net : list post_result) (st : app) :
  after_queue st = [] ->
  threads st = [ThStreamFinalResponse] ->
  let st' := run (r :: net) st in
  idle st'
  /\ grows st st'
  /\ callback_errors (trace st') = callback_errors (trace st)
  /\ exists req, requests_in (trace st') = requests_in (trace st) ++ [req].
Proof.
  intros Hq Hth. cbn [run]. rewrite (mainloop_empty _ Hq), Hth.
  unfold run_thread.
  destruct (final_worker_step (chat_stream (base_url (set_threads [] st)) r)
              (set_threads [] st))
    as (cbs & Hq' & Hd & Hr & He & Hth' & Hs & Hg).
  match goal with
  | |- context [run net ?X] =>
      destruct (mainloop_finish cbs X) as (H1 & H2 & H3 & H4 & H5);
      [ rewrite Hq'; cbn; now rewrite Hq | exact Hd | ];
      rewrite (run_no_thread net X) by (rewrite H4, Hth'; reflexivity)
  end.
  cbv zeta. unfold idle, grows in *. rewrite H1, H2, H3, H4, H5, Hr, He, Hth'.
  destruct Hg as [new Hn]. rewrite Hn.
  cbn. repeat split; eauto.
Qed.

(** From the moment the worker of the initial stream has been started:
    the three ways the schedule can go. *)
Lemma initial_worker_run (r : post_result) (net : list post_result) (st : app) :
  after_queue st = [] ->
  threads st = [ThStreamResponse] ->
  let st' := run (r :: net) st in
  grows st st'
  /\ after_queue st' = []
  /\ exists reqs,
       requests_in (trace st') = requests_in (trace st) ++ reqs
       /\ (1 <= length reqs <= 2)%nat
       /\ ((idle st'
            /\ callback_errors (trace st') = callback_errors (trace st))
           \/ (threads st' = [] /\ is_streaming st' = is_streaming st
               /\ length reqs = 1%nat
               /\ exists e, callback_errors (trace st')
                            = callback_errors (trace st) ++ [EvCallbackError e])
           \/ (net = [] /\ threads st' = [ThStreamFinalResponse]
               /\ is_streaming st' = is_streaming st
               /\ length reqs = 1%nat
               /\ callback_errors (trace st') = callback_errors (trace st))).
Proof.
  intros Hq Hth. cbn [run]. rewrite (mainloop_empty _ Hq), Hth.
  unfold run_thread.
  destruct (worker_step (chat_stream (base_url (set_threads [] st)) r)
              (set_threads [] st))
    as (cbs & last & Hq' & Hd & Hlast & Hr & He & Hth' & Hs & Hg).
  set (X := exec (stream_response (chat_stream (base_url (set_threads [] st)) r))
                 (set_threads [] st)) in *.
  assert (after_queue X = cbs ++ [last]) as HqX.
  { rewrite Hq'. cbn. now rewrite Hq. }
  assert (threads X = []) as HthX by (rewrite Hth'; reflexivity).
  assert (is_streaming X = is_streaming st) as HsX by (rewrite Hs; reflexivity).
  assert (grows st X) as HgX.
  { destruct Hg as [new Hn]. exists new. rewrite Hn. reflexivity. }
  assert (requests_in (trace X)
          = requests_in (trace st) ++ [EvRequest (request_payload (set_threads [] st))])
    as HrX by (rewrite Hr; reflexivity).
  assert (callback_errors (trace X) = callback_errors (trace st)) as HeX
    by (rewrite He; reflexivity).
  clear Hq' Hth' Hs Hg Hr He. clearbody X.
  pose proof (mainloop_last cbs last X HqX Hd) as Hml.
  destruct (shown_fields cbs X) as (Ym & Yt & Yth & Yq & Ys).
  set (Y := show_all cbs (set_after_queue [] X)) in *.
  destruct Hlast as [-> | (tcs & text & ->)].
  - (* finish_streaming *)
    destruct (tk_call_finish Y) as (F1 & F2 & F3 & F4 & F5).
    assert (threads (mainloop X) = []) as Hnone by (rewrite Hml, F4, Yth; exact HthX).
    rewrite (run_no_thread net X Hnone), Hml. cbv zeta.
    rewrite F3, Yt, F5, Yq, HrX, HeX.
    split; [exists (drop (length (messages st)) (messages X)) |].
    { rewrite F2, Ym. destruct HgX as [new Hn]. rewrite Hn.
      now rewrite drop_app_length. }
    split; [reflexivity |]. eexists. split; [reflexivity |].
    split; [cbn; lia |]. left.
    split; [|reflexivity]. unfold idle. now rewrite F1, F4, Yth, F5, Yq.
  - (* handle_tool_calls *)
    destruct (tk_call_handle tcs text Y) as (T1 & T2 & T3 & T4 & T5).
    rewrite <- Hml in T1, T2, T3, T4, T5.
    assert (run net X = run net (mainloop X)) as Hrun.
    { destruct net as [|r2 net']; cbn [run].
      - rewrite (mainloop_empty (mainloop X)); [reflexivity |].
        now rewrite T2, Yq.
      - rewrite (mainloop_empty (mainloop X)); [reflexivity |].
        now rewrite T2, Yq. }
    rewrite Hrun. clear Hrun Hml.
    set (Z := mainloop X) in *.
    assert (requests_in (trace Z)
            = requests_in (trace st)
              ++ [EvRequest (request_payload (set_threads [] st))]) as ZR.
    { rewrite T1. unfold requests_in in *. now rewrite Yt. }
    assert (after_queue Z = []) as ZQ by (now rewrite T2).
    assert (is_streaming Z = is_streaming st) as ZS by (now rewrite T3, Ys).
    assert (grows st Z) as ZG.
    { eapply grows_trans; [exact HgX |].
      destruct T4 as [new Hn]. exists new. now rewrite Hn, Ym. }
    assert ((threads Z = [ThStreamFinalResponse]
             /\ callback_errors (trace Z) = callback_errors (trace st))
            \/ (threads Z = []
                /\ exists e, callback_errors (trace Z)
                             = callback_errors (trace st) ++ [EvCallbackError e]))
      as ZT.
    { unfold callback_errors in *.
      destruct T5 as [[Tth Te] | [Tth [e Te]]]; [left | right];
        rewrite Tth, Yth, HthX, Te, Yt, HeX; eauto. }
    clearbody Z. clear T1 T2 T3 T4 T5.
    destruct ZT as [[ZT ZE] | [ZT [e ZE]]].
    + (* the resumption worker has been started *)
      destruct net as [|r2 net'].
      * cbn [run]. rewrite (mainloop_empty Z ZQ). cbv zeta.
        split; [exact ZG |]. split; [exact ZQ |].
        eexists. split; [exact ZR |]. split; [cbn; lia |].
        right. right. auto.
      * destruct (final_worker_run r2 net' Z ZQ ZT)
          as (Hi & Hg2 & He2 & req & Hr2).
        cbv zeta. rewrite Hr2, He2, ZR, ZE.
        split; [eapply grows_trans; [exact ZG | exact Hg2] |].
        split; [apply Hi |]. eexists. rewrite <- app_assoc.
        split; [reflexivity |]. split; [cbn; lia |]. left.
        split; [exact Hi | reflexivity].
    + (* the callback raised *)
      assert (threads (mainloop Z) = []) as Hnone
        by (now rewrite (mainloop_empty Z ZQ)).
      rewrite (run_no_thread net Z Hnone), (mainloop_empty Z ZQ). cbv zeta.
      split; [exact ZG |]. split; [exact ZQ |].
      eexists. split; [exact ZR |]. split; [cbn; lia |].
      right. left. eauto.
Qed.

End AnyTurn.

Lemma send_message_cases (st : app) :
  let st1 := exec send_message st in
  after_queue st1 = after_queue st
  /\ requests_in (trace st1) = requests_in (trace st)
  /\ callback_errors (trace st1) = callback_errors (trace st)
  /\ grows st st1
  /\ ((threads st1 = threads st /\ is_streaming st1 = is_streaming st)
      \/ (threads st1 = threads st ++ [ThStreamResponse]
          /\ is_streaming st = false /\ is_streaming st1 = true)).
Proof.
  destruct st as [msgs cm busy reg dir url mv text disp dlg q ths fs clk tr].
  unfold exec, send_message, add_message_to_display, grows, requests_in,
    callback_errors.
  run_m.
  destruct (String.eqb (strip (text +:+ String "010" "")) "");
    [cbn; repeat split; [exists []; now rewrite app_nil_r | auto] |].
  destruct (falsy_model cm) eqn:Ecm; cbn.
  - destruct (String.eqb mv ""); cbn;
      [repeat split; [exists []; now rewrite app_nil_r | auto] |].
    destruct busy; cbn; rewrite ?List.filter_app, ?app_nil_r; cbn;
      rewrite ?app_nil_r; repeat split; eauto.
    exists []. now rewrite app_nil_r.
  - rewrite Ecm. cbn.
    destruct busy; cbn; rewrite ?List.filter_app, ?app_nil_r; cbn;
      rewrite ?app_nil_r; repeat split; eauto.
    exists []. now rewrite app_nil_r.
Qed.

(** The ways a turn can go, from a session with nothing pending. *)
Lemma turn_cases `{RT : Runtime} (net : list post_result) (st : app) :
  threads st = [] ->
  after_queue st = [] ->
  let st' := turn net st in
  grows st st'
  /\ after_queue st' = []
  /\ exists reqs,
       requests_in (trace st') = requests_in (trace st) ++ reqs
       /\ (length reqs <= 2)%nat
       /\ ((threads st' = []
            /\ (is_streaming st' = false \/ is_streaming st' = is_streaming st)
            /\ callback_errors (trace st') = callback_errors (trace st))
           \/ (threads st' = [] /\ is_streaming st' = true
               /\ exists e, callback_errors (trace st')
                            = callback_errors (trace st) ++ [EvCallbackError e])
           \/ ((length net < 2)%nat /\ threads st' <> [])).
Proof.
  intros Hth Hq. unfold turn.
  destruct (send_message_cases st) as (Sq & Sr & Se & Sg & Scase).
  set (st1 := exec send_message st) in *. clearbody st1.
  rewrite Hq in Sq. rewrite Hth in Scase. cbv zeta.
  destruct Scase as [[Sth Ss] | (Sth & Sbusy & Ss)].
  - (* rejected *)
    assert (threads (mainloop st1) = []) as Hnone
      by (now rewrite (mainloop_empty st1 Sq)).
    rewrite (run_no_thread net st1 Hnone), (mainloop_empty st1 Sq).
    split; [exact Sg |]. split; [exact Sq |].
    exists []. rewrite app_nil_r. split; [exact Sr |]. split; [cbn; lia |].
    left. auto.
  - (* accepted *)
    cbn [Datatypes.app] in Sth.
    destruct net as [|r net'].
    + cbn [run]. rewrite (mainloop_empty st1 Sq).
      split; [exact Sg |]. split; [exact Sq |].
      exists []. rewrite app_nil_r. split; [exact Sr |]. split; [cbn; lia |].
      right. right. split; [cbn; lia |]. now rewrite Sth.
    + destruct (initial_worker_run r net' st1 Sq Sth)
        as (Hg & Hq' & reqs & Hr & Hlen & Hcase).
      split; [eapply grows_trans; [exact Sg | exact Hg] |].
      split; [exact Hq' |].
      exists reqs. rewrite Hr, Sr. split; [reflexivity |]. split; [lia |].
      destruct Hcase as [[(Hi1 & Hi2 & Hi3) He]
                        | [(Ht & Hs & _ & e & He) | (-> & Ht & _)]].
      * left. rewrite He, Se. auto.
      * right. left. rewrite Hs, Ss, He, Se. eauto.
      * right. right. split; [cbn; lia |]. now rewrite Ht.
Qed.

(** X18: the history is append-only over a whole turn, whatever the
    server answers (chunks of any shape, failures, missing answers):
    the history before the turn is a prefix of the history after it. *)
Theorem turn_history_is_append_only `{RT : Runtime}
    (net : list post_result) (st : app) :
  threads st = [] ->
  after_queue st = [] ->
  exists new, messages (turn net st) = messages st ++ new.
Proof.
  intros Hth Hq. destruct (turn_cases net st Hth Hq) as (Hg & _). exact Hg.
Qed.

Lemma turn_history_is_append_only_witness :
  let st := set_input_text "hello" example_session in
  let st0 := set_is_streaming false st in
  exists new,
    messages (turn (RT := Machine.runtime)
                [PostRaises (Exn Timeout "timed out")] st0)
    = messages st0 ++ new.
Proof.
  cbv zeta.
  apply (turn_history_is_append_only (RT := Machine.runtime)); reflexivity.
Defined.

(** X19: a turn issues at most two chat requests, whatever the server
    answers and however many answers it would be ready to give: the
    initial stream and at most one resumption. *)
Theorem turn_issues_at_most_two_requests `{RT : Runtime}
    (net : list post_result) (st : app) :
  threads st = [] ->
  after_queue st = [] ->
  exists reqs,
    requests_in (trace (turn net st)) = requests_in (trace st) ++ reqs
    /\ (length reqs <= 2)%nat.
Proof.
  intros Hth Hq.
  destruct (turn_cases net st Hth Hq) as (_ & _ & reqs & Hr & Hlen & _).
  eauto.
Qed.

Lemma turn_issues_at_most_two_requests_witness :
  let ask := Chunk (Some (MessagePart (Some "")
                            (Some [ToolCall "get_top_cryptocurrencies" []])))
                   true in
  let r := PostResponse 200 "OK" [Machine.dumps (encode ask)] None in
  let st0 := set_input_text "Top coins?" (set_is_streaming false example_session) in
  exists reqs,
    requests_in (trace (turn (RT := Machine.runtime) [r; r; r; r] st0))
    = requests_in (trace st0) ++ reqs
    /\ (length reqs <= 2)%nat.
Proof.
  cbv zeta.
  apply (turn_issues_at_most_two_requests (RT := Machine.runtime)); reflexivity.
Defined.

(** X20: with two answers of the server at hand, a turn started on an
    idle session always comes to an end, whatever the answers are:
    either the session is idle again, or an exception left
    [handle_tool_calls], was reported by Tk, and the session is left
    busy with nothing pending, so that every later submission is
    refused. *)
Theorem turn_ends_idle_or_reports `{RT : Runtime}
    (net : list post_result) (st : app) :
  idle st ->
  (2 <= length net)%nat ->
  let st' := turn net st in
  idle st'
  \/ (is_streaming st' = true /\ threads st' = [] /\ after_queue st' = []
      /\ exists e, callback_errors (trace st')
                   = callback_errors (trace st) ++ [EvCallbackError e]).
Proof.
  intros (Hs & Hth & Hq) Hlen. cbv zeta.
  destruct (turn_cases net st Hth Hq) as (_ & Hq' & reqs & _ & _ & Hcase).
  destruct Hcase as [(Ht & Hs' & _) | [(Ht & Hs' & He) | (Hshort & _)]].
  - left. unfold idle. rewrite Hs in Hs'. destruct Hs' as [Hs' | Hs']; auto.
  - right. auto.
  - lia.
Qed.

Lemma turn_ends_idle_or_reports_witness :
  let ask := JObj [("message", JObj [("tool_calls", JArr [JNum 7])]);
                   ("done", JBool true)] in
  let r := PostResponse 200 "OK" [Machine.dumps ask] None in
  let st0 := set_input_text "Top coins?" (set_is_streaming false example_session) in
  idle st0
  /\ is_streaming (turn (RT := Machine.runtime) [r; r] st0) = true
  /\ callback_errors (trace (turn (RT := Machine.runtime) [r; r] st0)) <> [].
Proof.
  cbv zeta. split; [repeat split |].
  destruct (turn_ends_idle_or_reports (RT := Machine.runtime)
              [PostResponse 200 "OK"
                 [Machine.dumps
                    (JObj [("message", JObj [("tool_calls", JArr [JNum 7])]);
                           ("done", JBool true)])] None;
               PostResponse 200 "OK"
                 [Machine.dumps
                    (JObj [("message", JObj [("tool_calls", JArr [JNum 7])]);
                           ("done", JBool true)])] None]
              (set_input_text "Top coins?" (set_is_streaming false example_session)))
    as [(Hi & _) | (Hs & _ & _ & e & He)].
  - repeat split.
  - cbn; lia.
  - vm_compute in Hi. discriminate Hi.
  - split; [exact Hs |]. rewrite He. now destruct (callback_errors _).
Defined.

(* ===================================================================== *)
(** ** Further properties: the list of saved chats                       *)
(* ===================================================================== *)

Lemma path_join_prefix (dir name : string) :
  path_join dir name = dir_prefix dir +:+ name.
Proof.
  unfold path_join, dir_prefix.
  destruct (String.eqb dir ""); [reflexivity |].
  destruct (String.eqb _ "/"); [reflexivity |].
  now rewrite str_app_assoc.
Qed.

Lemma strip_prefix_app (p s : string) : strip_prefix p (p +:+ s) = Some s.
Proof.
  induction p as [|a p IH]; [reflexivity |].
  rewrite str_app_cons. cbn. now rewrite Ascii.eqb_refl.
Qed.

Lemma strip_prefix_Some (p s r : string) :
  strip_prefix p s = Some r -> s = p +:+ r.
Proof.
  revert s. induction p as [|a p IH]; intros s; cbn.
  - now intros [= ->].
  - destruct s as [|b s]; [discriminate |].
    destruct (Ascii.eqb a b) eqn:E; [|discriminate].
    apply Ascii.eqb_eq in E. subst b. intros H.
    rewrite str_app_cons. f_equal. now apply IH.
Qed.

Lemma entry_name_join (dir name : string) :
  is_entry_name name = true -> entry_name dir (path_join dir name) = Some name.
Proof.
  intros H. unfold entry_name.
  now rewrite path_join_prefix, strip_prefix_app, H.
Qed.

Lemma entry_name_Some (dir path name : string) :
  entry_name dir path = Some name ->
  path = path_join dir name /\ is_entry_name name = true.
Proof.
  unfold entry_name.
  destruct (strip_prefix (dir_prefix dir) path) as [n|] eqn:E; [|discriminate].
  destruct (is_entry_name n) eqn:En; [|discriminate].
  intros [= <-]. split; [|exact En].
  rewrite path_join_prefix. now apply strip_prefix_Some.
Qed.

(** [os.listdir] gives exactly the names of the files of the directory. *)
Lemma listdir_In (dir name : string) (files : gmap string string) :
  In name (listdir dir files)
  <-> is_entry_name name = true
      /\ exists text, files !! path_join dir name = Some text.
Proof.
  unfold listdir. rewrite <- list_elem_of_In, list_elem_of_omap. split.
  - intros (path & Hin & Hname).
    apply entry_name_Some in Hname as [-> Hok]. split; [exact Hok |].
    apply list_elem_of_In, in_map_iff in Hin as ([p text] & Hp & Hin).
    cbn in Hp. subst p. exists text.
    now apply elem_of_map_to_list, list_elem_of_In.
  - intros (Hok & text & Hl). exists (path_join dir name).
    split; [|now apply entry_name_join].
    apply list_elem_of_In, in_map_iff. exists (path_join dir name, text).
    split; [reflexivity |]. now apply list_elem_of_In, elem_of_map_to_list.
Qed.

Lemma insert_desc_In (x y : string) (l : list string) :
  In y (insert_desc x l) <-> y = x \/ In y l.
Proof.
  induction l as [|z l IH]; cbn.
  - intuition.
  - destruct (String.leb z x); cbn; [intuition |]. rewrite IH. intuition.
Qed.

Lemma sorted_desc_In (x : string) (l : list string) :
  In x (sorted_desc l) <-> In x l.
Proof.
  induction l as [|y l IH]; cbn; [reflexivity |].
  rewrite insert_desc_In, IH. intuition.
Qed.

Lemma leb_trans (a b c : string) :
  String.leb a b = true -> String.leb b c = true -> String.leb a c = true.
Proof.
  intros H1 H2. apply Is_true_true.
  apply Is_true_true in H1, H2.
  change (String.le a c). change (String.le a b) in H1. change (String.le b c) in H2.
  etrans; eauto.
Qed.

Lemma insert_desc_descending (x : string) (l : list string) :
  descending l -> descending (insert_desc x l).
Proof.
  induction l as [|y l IH]; cbn; [auto |].
  intros [Hall Hd]. destruct (String.leb y x) eqn:E; cbn.
  - split; [|auto]. constructor; [exact E |].
    eapply Forall_impl; [exact Hall |]. cbn. intros z Hz.
    eapply leb_trans; eauto.
  - split; [|auto].
    destruct (String.leb_total y x) as [H | H]; [congruence |].
    apply Forall_forall. intros z Hz. apply list_elem_of_In, insert_desc_In in Hz.
    destruct Hz as [-> | Hz]; [exact H |].
    rewrite Forall_forall in Hall. apply Hall. now apply list_elem_of_In.
Qed.

Lemma sorted_desc_descending (l : list string) : descending (sorted_desc l).
Proof.
  induction l as [|x l IH]; cbn; [exact I |]. now apply insert_desc_descending.
Qed.

Lemma descending_filter (f : string -> bool) (l : list string) :
  descending l -> descending (List.filter f l).
Proof.
  induction l as [|x l IH]; cbn; [auto |].
  intros [Hall Hd]. destruct (f x); cbn; [|auto].
  split; [|auto]. apply Forall_forall. intros y Hy.
  apply list_elem_of_In, List.filter_In in Hy as [Hy _].
  rewrite Forall_forall in Hall. apply Hall. now apply list_elem_of_In.
Qed.

Lemma str_rev_onto_app (s acc : string) :
  str_rev_onto s acc = str_rev s +:+ acc.
Proof.
  unfold str_rev. revert acc.
  induction s as [|c s IH]; intros acc; cbn; [now rewrite str_app_nil_l |].
  rewrite (IH (String c "")), IH, str_app_assoc.
  now rewrite str_app_cons, str_app_nil_l.
Qed.

Lemma str_rev_app (a b : string) : str_rev (a +:+ b) = str_rev b +:+ str_rev a.
Proof.
  induction a as [|c a IH].
  - now rewrite str_app_nil_l, str_app_nil_r.
  - rewrite str_app_cons. unfold str_rev at 1 3. cbn.
    rewrite !str_rev_onto_app, IH. now rewrite str_app_assoc.
Qed.

Lemma str_ends_with_app (suffix s : string) :
  str_ends_with suffix (s +:+ suffix) = true.
Proof. unfold str_ends_with. rewrite str_rev_app. apply prefix_app. Qed.

Lemma chat_filename_is_json (model timestamp : string) :
  str_ends_with ".json" (chat_filename model timestamp) = true.
Proof.
  unfold chat_filename. rewrite <- !str_app_assoc. apply str_ends_with_app.
Qed.

Lemma str_app_inv_l (p a b : string) : p +:+ a = p +:+ b -> a = b.
Proof.
  induction p as [|c p IH]; [now rewrite !str_app_nil_l |].
  rewrite !str_app_cons. intros [= H]. now apply IH.
Qed.

Lemma str_rev_involutive (s : string) : str_rev (str_rev s) = s.
Proof.
  induction s as [|c s IH]; [reflexivity |].
  change (String c s) with (String c "" +:+ s) at 1.
  rewrite str_rev_app, str_rev_app, IH. reflexivity.
Qed.

Lemma str_app_inv_r (s a b : string) : a +:+ s = b +:+ s -> a = b.
Proof.
  intros H. apply (f_equal str_rev) in H. rewrite !str_rev_app in H.
  apply str_app_inv_l in H. apply (f_equal str_rev) in H.
  now rewrite !str_rev_involutive in H.
Qed.

Lemma path_join_inj (dir a b : string) : path_join dir a = path_join dir b -> a = b.
Proof. rewrite !path_join_prefix. apply str_app_inv_l. Qed.

Lemma chat_filename_inj (model t1 t2 : string) :
  chat_filename model t1 = chat_filename model t2 -> t1 = t2.
Proof.
  unfold chat_filename. intros H.
  do 3 apply str_app_inv_l in H. now apply str_app_inv_r in H.
Qed.

Section HistoryFacts.
Context `{RT : Runtime}.

Lemma read_summary_Return (dir : string) (files : gmap string string)
    (filename : string) (entry : json) :
  read_summary dir files filename = Return entry ->
  exists text, files !! path_join dir filename = Some text.
Proof.
  unfold read_summary, load_chat.
  destruct (files !! path_join dir filename) as [text|]; [eauto | discriminate].
Qed.

Lemma list_chats_loop_In (dir : string) (files : gmap string string)
    (names : list string) (entry : json) :
  In entry (list_chats_loop dir files names)
  <-> exists filename,
        In filename names
        /\ str_ends_with ".json" filename = true
        /\ read_summary dir files filename = Return entry.
Proof.
  induction names as [|n names IH]; cbn.
  - split; [tauto | now intros (? & [] & _)].
  - destruct (str_ends_with ".json" n) eqn:E.
    + destruct (read_summary dir files n) as [e|x] eqn:R; cbn; rewrite IH; split.
      * intros [<- | (f & Hin & Hf)]; [exists n | exists f]; tauto.
      * intros (f & [<- | Hin] & He & Hr); [left; congruence | right; eauto].
      * intros (f & Hin & Hf). exists f. tauto.
      * intros (f & [<- | Hin] & He & Hr); [congruence | eauto].
    + rewrite IH. split.
      * intros (f & Hin & Hf). exists f. tauto.
      * intros (f & [<- | Hin] & He & Hr); [congruence | eauto].
Qed.

(** The summary of a file that is read names the file. *)
Lemma read_summary_names (dir : string) (files : gmap string string)
    (filename : string) (entry : json) :
  read_summary dir files filename = Return entry ->
  exists kvs, entry = JObj (("filename", JStr filename) :: kvs).
Proof.
  unfold read_summary. destruct (load_chat _ _) as [data|]; [|discriminate].
  unfold chat_summary.
  destruct (py_get data "model" _); [|discriminate].
  destruct (py_get data "timestamp" _); [|discriminate].
  destruct (py_get data "messages" _) as [m|]; [|discriminate].
  destruct (py_len m); [|discriminate].
  intros [= <-]. eauto.
Qed.

Lemma list_chats_loop_names (dir : string) (files : gmap string string)
    (names : list string) :
  summary_names (list_chats_loop dir files names)
  = map JStr (List.filter (is_listed dir files) names).
Proof.
  induction names as [|n names IH]; [reflexivity |].
  cbn [list_chats_loop List.filter]. unfold is_listed at 1.
  destruct (str_ends_with ".json" n); cbn [andb]; [|exact IH].
  destruct (read_summary dir files n) as [e|x] eqn:R; [|exact IH].
  destruct (read_summary_names _ _ _ _ R) as (kvs & ->).
  cbn. unfold summary_names in IH. cbn in IH. now rewrite IH.
Qed.

End HistoryFacts.

(** X21: [list_chats] returns exactly the summaries of the entries of the
    history directory whose name ends in [.json] and whose content is
    read and summarised without an exception; a file that cannot be read
    is passed over and hides no other file. *)
Theorem list_chats_lists_readable_chats `{RT : Runtime}
    (dir : string) (files : gmap string string) (entry : json) :
  In entry (list_chats dir files)
  <-> exists filename,
        is_entry_name filename = true
        /\ str_ends_with ".json" filename = true
        /\ read_summary dir files filename = Return entry.
Proof.
  unfold list_chats. rewrite list_chats_loop_In. split.
  - intros (f & Hin & He & Hr). exists f.
    apply sorted_desc_In, listdir_In in Hin as [Hok _]. tauto.
  - intros (f & Hok & He & Hr). exists f. split; [|tauto].
    apply sorted_desc_In, listdir_In. split; [exact Hok |].
    eapply read_summary_Return; eauto.
Qed.

(** X22: a chat that [save_chat] has written is listed by [list_chats]
    with its file name, its path, its model, its timestamp and the number
    of its messages, provided the file name has no slash (the model name
    has none) and the record survives the JSON round trip. *)
Theorem saved_chat_is_listed `{RT : Runtime}
    (dir timestamp model : string) (msgs : list json)
    (fs fs' : gmap string string) (path : string) :
  is_entry_name (chat_filename model timestamp) = true ->
  json_loads (json_dumps_indent (chat_record msgs model timestamp))
  = Some (chat_record msgs model timestamp) ->
  save_chat dir timestamp msgs model fs = Return (fs', path) ->
  In (JObj [("filename", JStr (chat_filename model timestamp));
            ("filepath", JStr path);
            ("model", JStr model);
            ("timestamp", JStr timestamp);
            ("message_count", JNum (Z.of_nat (length msgs)))])
     (list_chats dir fs').
Proof.
  intros Hok Hround Hsave. unfold save_chat in Hsave.
  destruct (open_w_ok _); [|discriminate].
  injection Hsave as <- <-.
  unfold list_chats. apply list_chats_loop_In.
  exists (chat_filename model timestamp). split; [|split].
  - apply sorted_desc_In, listdir_In. split; [exact Hok |].
    eexists. apply lookup_insert_eq.
  - apply chat_filename_is_json.
  - unfold read_summary, load_chat. rewrite lookup_insert_eq, Hround.
    reflexivity.
Qed.

Lemma saved_chat_is_listed_witness :
  let msgs := [user_message "What's 2+2?"; assistant_message "4"] in
  let dir := history_dir example_session in
  exists fs' path,
    save_chat (RT := Machine.runtime) dir "20240101_120000" msgs "llama2:7b" ∅
    = Return (fs', path)
    /\ In (JObj [("filename", JStr "chat_llama2_7b_20240101_120000.json");
                 ("filepath", JStr path);
                 ("model", JStr "llama2:7b");
                 ("timestamp", JStr "20240101_120000");
                 ("message_count", JNum 2)])
          (list_chats (RT := Machine.runtime) dir fs').
Proof.
  cbv zeta. eexists. eexists. split; [reflexivity |].
  apply (saved_chat_is_listed (RT := Machine.runtime)
           (history_dir example_session) "20240101_120000" "llama2:7b"
           [user_message "What's 2+2?"; assistant_message "4"] ∅);
    reflexivity.
Defined.

(** X23: the summaries [list_chats] returns come in descending order of
    their file names, so of two chats of one model the later one comes
    first. *)
Theorem list_chats_is_in_descending_order `{RT : Runtime}
    (dir : string) (files : gmap string string) :
  exists names,
    summary_names (list_chats dir files) = map JStr names
    /\ descending names.
Proof.
  exists (List.filter (is_listed dir files) (sorted_desc (listdir dir files))).
  split.
  - apply list_chats_loop_names.
  - apply descending_filter, sorted_desc_descending.
Qed.

(** X24: a second [save_chat] with the same timestamp, for a model whose
    name is the same once its colons are replaced, writes the same file:
    the chat saved first is lost, the files are as if only the second
    call had been made. *)
Theorem save_chat_same_second_overwrites `{RT : Runtime}
    (dir timestamp model1 model2 : string) (msgs1 msgs2 : list json)
    (fs fs1 fs2 : gmap string string) (path1 path2 : string) :
  str_replace ":" "_" model1 = str_replace ":" "_" model2 ->
  save_chat dir timestamp msgs1 model1 fs = Return (fs1, path1) ->
  save_chat dir timestamp msgs2 model2 fs1 = Return (fs2, path2) ->
  path2 = path1
  /\ save_chat dir timestamp msgs2 model2 fs = Return (fs2, path2).
Proof.
  unfold save_chat, chat_filename. intros Hm H1 H2. rewrite Hm in H1.
  destruct (open_w_ok _); [|discriminate].
  injection H1 as <- <-. injection H2 as <- <-.
  split; [reflexivity |]. now rewrite insert_insert_eq.
Qed.

Lemma save_chat_same_second_overwrites_witness :
  let dir := history_dir example_session in
  exists fs1 fs2 path1 path2,
    save_chat (RT := Machine.runtime) dir "20240101_120000"
      [user_message "one"] "llama2:7b" ∅ = Return (fs1, path1)
    /\ save_chat (RT := Machine.runtime) dir "20240101_120000"
         [user_message "two"] "llama2_7b" fs1 = Return (fs2, path2)
    /\ path2 = path1
    /\ save_chat (RT := Machine.runtime) dir "20240101_120000"
         [user_message "two"] "llama2_7b" ∅ = Return (fs2, path2).
Proof.
  cbv zeta. eexists. eexists. eexists. eexists.
  split; [reflexivity |]. split; [reflexivity |].
  eapply (save_chat_same_second_overwrites (RT := Machine.runtime)
           (history_dir example_session) "20240101_120000"
           "llama2:7b" "llama2_7b" [user_message "one"] [user_message "two"] ∅);
    reflexivity.
Defined.

(** X25: two [save_chat] calls for one model with different timestamps
    write different files: after the second call the first chat is still
    loaded as before. *)
Theorem save_chat_later_keeps_earlier `{RT : Runtime}
    (dir t1 t2 model : string) (msgs1 msgs2 : list json)
    (fs fs1 fs2 : gmap string string) (path1 path2 : string) :
  t1 <> t2 ->
  save_chat dir t1 msgs1 model fs = Return (fs1, path1) ->
  save_chat dir t2 msgs2 model fs1 = Return (fs2, path2) ->
  path1 <> path2 /\ load_chat path1 fs2 = load_chat path1 fs1.
Proof.
  unfold save_chat. intros Ht H1 H2.
  destruct (open_w_ok (path_join dir (chat_filename model t1))); [|discriminate].
  destruct (open_w_ok (path_join dir (chat_filename model t2))); [|discriminate].
  injection H1 as <- <-. injection H2 as <- <-.
  assert (Hne : path_join dir (chat_filename model t1)
                <> path_join dir (chat_filename model t2)).
  { intros E. apply Ht. eapply chat_filename_inj, path_join_inj, E. }
  split; [exact Hne |].
  unfold load_chat. rewrite (lookup_insert_ne _ _ _ _ (not_eq_sym Hne)).
  reflexivity.
Qed.

Lemma save_chat_later_keeps_earlier_witness :
  let dir := history_dir example_session in
  exists fs1 fs2 path1 path2,
    save_chat (RT := Machine.runtime) dir "20240101_120000"
      [user_message "one"] "llama2:7b" ∅ = Return (fs1, path1)
    /\ save_chat (RT := Machine.runtime) dir "20240101_120001"
         [user_message "two"] "llama2:7b" fs1 = Return (fs2, path2)
    /\ path1 <> path2
    /\ load_chat (RT := Machine.runtime) path1 fs2
       = load_chat (RT := Machine.runtime) path1 fs1.
Proof.
  cbv zeta. eexists. eexists. eexists. eexists.
  split; [reflexivity |]. split; [reflexivity |].
  eapply (save_chat_later_keeps_earlier (RT := Machine.runtime)
           (history_dir example_session) "20240101_120000" "20240101_120001"
           "llama2:7b" [user_message "one"] [user_message "two"] ∅);
    [discriminate | reflexivity | reflexivity].
Defined.
